(** * Batch process storage (invokeai/app/services/batch_manager_storage.py)

    A shallow embedding of [SqliteBatchProcessStorage]: the two relations
    [batch_process] and [batch_session], the SQL statements the methods
    execute on them, and the methods themselves, written as functions from
    a database to a database and a result.

    Every method runs under [SqliteLock], a process-wide re-entrant lock
    (invokeai/app/services/thread.py), so methods execute one at a time;
    the embedding is sequential. *)

From Stdlib Require Import String Ascii List ZArith Bool Lia DecimalString.
Import ListNotations.
Local Open Scope string_scope.
Local Open Scope list_scope.

(** ** Values

    The values that cross the sqlite3 binding: SQL NULL is Python [None],
    INTEGER is [int], TEXT is [str]. *)

Inductive pyvalue : Type :=
| PyNone
| PyInt (z : Z)
| PyStr (s : string).

(** [dict(row)]: column name to value, in column order. *)
Definition dict : Type := list (string * pyvalue).

(** [d.get(key, default)]. *)
Fixpoint dict_get (d : dict) (key : string) (default : pyvalue) : pyvalue :=
  match d with
  | [] => default
  | (k, v) :: d' => if (k =? key)%string then v else dict_get d' key default
  end.

(** [key in d]. *)
Definition dict_has (d : dict) (key : string) : bool :=
  existsb (fun kv => (fst kv =? key)%string) d.

(** ** Exceptions and results *)

Inductive exn : Type :=
| BatchProcessNotFoundException
| BatchProcessSaveException
| BatchProcessDeleteException
| BatchSessionNotFoundException
| BatchSessionSaveException
| BatchSessionDeleteException
| DecodeError.
(* [DecodeError] stands for what the decoding collaborators raise and the
   store does not catch: json.JSONDecodeError, TypeError and pydantic's
   ValidationError. *)

Inductive result (A : Type) : Type :=
| Ok (a : A)
| Raise (e : exn).
Arguments Ok {A} a.
Arguments Raise {A} e.

Definition bind {A B : Type} (r : result A) (k : A -> result B) : result B :=
  match r with
  | Ok a => k a
  | Raise e => Raise e
  end.

(** A decoder that returns [None] raises. *)
Definition decoded {A : Type} (o : option A) : result A :=
  match o with
  | Some a => Ok a
  | None => Raise DecodeError
  end.

Notation "'let*' x ':=' r 'in' k" := (bind r (fun x => k))
  (at level 10, x name, r at level 100, k at level 200).

(** A comprehension [[f(x) for x in l]] where [f] may raise. *)
Fixpoint traverse {A B : Type} (f : A -> option B) (l : list A) : option (list B) :=
  match l with
  | [] => Some []
  | a :: l' =>
      match f a with
      | None => None
      | Some b =>
          match traverse f l' with
          | None => None
          | Some bs => Some (b :: bs)
          end
      end
  end.

(** ** SQL expressions of the WHERE clauses

    The statements of the source use column names, [?] parameters, quoted
    text literals, [=] and [AND]. An unquoted word is a column name. *)

Inductive expr : Type :=
| Column (name : string)
| Param (i : nat)
| Text (s : string)
| Eq (a b : expr)
| And (a b : expr).

(** Name resolution when the statement is prepared: every column an
    expression names must be a column of the table, or sqlite3 raises
    OperationalError (no such column). *)
Fixpoint resolves (columns : list string) (e : expr) : bool :=
  match e with
  | Column name => existsb (String.eqb name) columns
  | Param _ => true
  | Text _ => true
  | Eq a b => resolves columns a && resolves columns b
  | And a b => resolves columns a && resolves columns b
  end.

(** SQL comparison: NULL on either side gives NULL. All operands of the
    source's comparisons are TEXT; values of different storage classes
    compare unequal. *)
Definition sql_eq (x y : pyvalue) : pyvalue :=
  match x, y with
  | PyNone, _ => PyNone
  | _, PyNone => PyNone
  | PyInt a, PyInt b => PyInt (if Z.eqb a b then 1 else 0)
  | PyStr a, PyStr b => PyInt (if (a =? b)%string then 1 else 0)
  | _, _ => PyInt 0
  end.

Definition is_false (x : pyvalue) : bool :=
  match x with
  | PyInt 0 => true
  | _ => false
  end.

(** Three-valued AND. *)
Definition sql_and (x y : pyvalue) : pyvalue :=
  if is_false x || is_false y then PyInt 0
  else match x, y with
       | PyNone, _ => PyNone
       | _, PyNone => PyNone
       | _, _ => PyInt 1
       end.

Fixpoint eval (row : dict) (params : list pyvalue) (e : expr) : pyvalue :=
  match e with
  | Column name => dict_get row name PyNone
  | Param i => nth i params PyNone
  | Text s => PyStr s
  | Eq a b => sql_eq (eval row params a) (eval row params b)
  | And a b => sql_and (eval row params a) (eval row params b)
  end.

(** A row is selected when the WHERE clause is true: not false, not NULL. *)
Definition selected (x : pyvalue) : bool :=
  match x with
  | PyInt z => negb (Z.eqb z 0)
  | _ => false
  end.

(** A relation: its column names and the view of a row as [dict(row)]. *)
Class Table (row : Type) : Type := {
  columns : list string;
  as_dict : row -> dict
}.

Definition matches {row : Type} `{Table row}
  (where_ : expr) (params : list pyvalue) (r : row) : bool :=
  selected (eval (as_dict r) params where_).

(** [SELECT * FROM t WHERE w]: the matching rows in table order, or [None]
    when preparing the statement raises sqlite3.Error. *)
Definition select_where {row : Type} `{Table row}
  (where_ : expr) (params : list pyvalue) (rows : list row) : option (list row) :=
  if resolves columns where_
  then Some (filter (matches where_ params) rows)
  else None.

(** [UPDATE t SET ... WHERE w], [set] being the assignment together with
    the table's AFTER UPDATE trigger. *)
Definition update_where {row : Type} `{Table row}
  (set : row -> row) (where_ : expr) (params : list pyvalue) (rows : list row)
  : option (list row) :=
  if resolves columns where_
  then Some (map (fun r => if matches where_ params r then set r else r) rows)
  else None.

(** [DELETE FROM t WHERE w]. *)
Definition delete_where {row : Type} `{Table row}
  (where_ : expr) (params : list pyvalue) (rows : list row) : option (list row) :=
  if resolves columns where_
  then Some (filter (fun r => negb (matches where_ params r)) rows)
  else None.

(** [cursor.fetchone()]. *)
Definition fetchone {row : Type} (rows : list row) : option row := hd_error rows.

(** ** Data model *)

(** [state: Literal["created", "completed", "inprogress", "error"]]. *)
Inductive SessionState : Type :=
| created
| completed
| inprogress
| error.

(** The text of a state, as bound to a [?] parameter. *)
Definition state_text (s : SessionState) : string :=
  match s with
  | created => "created"
  | completed => "completed"
  | inprogress => "inprogress"
  | error => "error"
  end.

(** Membership of a text in the Literal, as pydantic checks it. *)
Definition state_of_text (s : string) : option SessionState :=
  if (s =? "created")%string then Some created
  else if (s =? "completed")%string then Some completed
  else if (s =? "inprogress")%string then Some inprogress
  else if (s =? "error")%string then Some error
  else None.

Module Batch.
Record t (BatchDataType : Type) : Type := {
  data : list (list (string * BatchDataType));
  node_id : string
}.
Arguments data {BatchDataType} _.
Arguments node_id {BatchDataType} _.
End Batch.

Module BatchSession.
Record t : Type := {
  batch_id : string;
  session_id : string;
  state : SessionState
}.
End BatchSession.

Module BatchProcess.
Record t (Graph BatchDataType : Type) : Type := {
  batch_id : option string;
  batches : list (Batch.t BatchDataType);
  canceled : bool;
  graph : Graph
}.
Arguments batch_id {Graph BatchDataType} _.
Arguments batches {Graph BatchDataType} _.
Arguments canceled {Graph BatchDataType} _.
Arguments graph {Graph BatchDataType} _.
End BatchProcess.

Module BatchSessionChanges.
Record t : Type := {
  state : SessionState
}.
End BatchSessionChanges.

(** The serialization collaborators: [Graph] and the batch data union live
    outside this file ([invokeai.app.services.graph], pydantic, json), and
    are parameters of the store.

    - [batch_json b] is [b.json()], [parse_raw_as_Batch s] is
      [parse_raw_as(Batch, s)];
    - [graph_json g] is [g.json()], [parse_raw_as_Graph s] is
      [parse_raw_as(Graph, s)];
    - [json_dumps l] is [json.dumps(l)] on a list of strings and
      [json_loads s] is [json.loads(s)] read back as that list.

    A parser that returns [None] raises. *)
Record Serializers (Graph BatchDataType : Type) : Type := {
  batch_json : Batch.t BatchDataType -> string;
  parse_raw_as_Batch : string -> option (Batch.t BatchDataType);
  graph_json : Graph -> string;
  parse_raw_as_Graph : string -> option Graph;
  json_dumps : list string -> string;
  json_loads : string -> option (list string)
}.
Arguments batch_json {Graph BatchDataType} _ _.
Arguments parse_raw_as_Batch {Graph BatchDataType} _ _.
Arguments graph_json {Graph BatchDataType} _ _.
Arguments parse_raw_as_Graph {Graph BatchDataType} _ _.
Arguments json_dumps {Graph BatchDataType} _ _.
Arguments json_loads {Graph BatchDataType} _ _.

(** ** The schema ([_create_tables]) *)

(** A row of [batch_process]. [batch_id] is the primary key; every column
    but [deleted_at] is NOT NULL. *)
Record batch_process_row : Type := {
  p_batch_id : string;
  p_batches : string;
  p_graph : string;
  p_canceled : Z;
  p_created_at : string;
  p_updated_at : string;
  p_deleted_at : option string
}.

(** A row of [batch_session]. The primary key is (batch_id, session_id)
    and batch_id references [batch_process] ON DELETE CASCADE. *)
Record batch_session_row : Type := {
  s_batch_id : string;
  s_session_id : string;
  s_state : string;
  s_created_at : string;
  s_updated_at : string;
  s_deleted_at : option string
}.

Definition nullable (o : option string) : pyvalue :=
  match o with
  | Some s => PyStr s
  | None => PyNone
  end.

#[export] Instance batch_process_table : Table batch_process_row := {
  columns :=
    ["batch_id"; "batches"; "graph"; "canceled";
     "created_at"; "updated_at"; "deleted_at"];
  as_dict r :=
    [("batch_id", PyStr (p_batch_id r));
     ("batches", PyStr (p_batches r));
     ("graph", PyStr (p_graph r));
     ("canceled", PyInt (p_canceled r));
     ("created_at", PyStr (p_created_at r));
     ("updated_at", PyStr (p_updated_at r));
     ("deleted_at", nullable (p_deleted_at r))]
}.

#[export] Instance batch_session_table : Table batch_session_row := {
  columns :=
    ["batch_id"; "session_id"; "state";
     "created_at"; "updated_at"; "deleted_at"];
  as_dict r :=
    [("batch_id", PyStr (s_batch_id r));
     ("session_id", PyStr (s_session_id r));
     ("state", PyStr (s_state r));
     ("created_at", PyStr (s_created_at r));
     ("updated_at", PyStr (s_updated_at r));
     ("deleted_at", nullable (s_deleted_at r))]
}.

(** The database: both tables, rows in rowid order. *)
Record database : Type := {
  batch_process : list batch_process_row;
  batch_session : list batch_session_row
}.

(** The database [__init__] creates on a fresh file. *)
Definition empty : database :=
  {| batch_process := []; batch_session := [] |}.

(** What the engine contributes to one method call: the two clock readings
    the schema uses, and whether the statement or its commit raises
    sqlite3.Error for a reason outside the database contents (I/O, a
    closed or locked file), for the write and for the read of the call. *)
Record engine : Type := {
  strftime_now : string;       (* STRFTIME('%Y-%m-%d %H:%M:%f', 'NOW') *)
  current_timestamp : string;  (* current_timestamp *)
  write_error : bool;
  read_error : bool
}.

(** ** The statements *)

(** [WHERE batch_id = ?] *)
Definition where_batch_id : expr :=
  Eq (Column "batch_id") (Param 0).

(** [WHERE session_id= ?] *)
Definition where_session_id : expr :=
  Eq (Column "session_id") (Param 0).

(** [WHERE batch_id = ? AND state = 'created'] of [get_created_session]. *)
Definition where_created_session : expr :=
  And (Eq (Column "batch_id") (Param 0)) (Eq (Column "state") (Text "created")).

(** [WHERE batch_id = ? AND state = created] of [get_created_sessions]:
    the word after [state =] is not quoted. *)
Definition where_created_sessions : expr :=
  And (Eq (Column "batch_id") (Param 0)) (Eq (Column "state") (Column "created")).

(** [SET state = ? WHERE batch_id = ? AND session_id = ?]: the WHERE clause
    reads the second and third parameters. *)
Definition where_batch_id_session_id : expr :=
  And (Eq (Column "batch_id") (Param 1)) (Eq (Column "session_id") (Param 2)).

(** [INSERT OR IGNORE INTO batch_process (batch_id, batches, graph)
    VALUES (?, ?, ?)]. A NULL batch_id breaks NOT NULL and an existing
    batch_id breaks the primary key; OR IGNORE skips the row in both
    cases. The other columns take their defaults. *)
Definition insert_or_ignore_batch_process (e : engine)
  (batch_id : option string) (batches graph : string) (db : database)
  : option database :=
  match batch_id with
  | None => Some db
  | Some b =>
      if existsb (fun r => (p_batch_id r =? b)%string) (batch_process db)
      then Some db
      else Some {| batch_process :=
                     batch_process db ++
                     [{| p_batch_id := b;
                         p_batches := batches;
                         p_graph := graph;
                         p_canceled := 0;
                         p_created_at := strftime_now e;
                         p_updated_at := strftime_now e;
                         p_deleted_at := None |}];
                   batch_session := batch_session db |}
  end.

(** [INSERT OR IGNORE INTO batch_session (batch_id, session_id, state)
    VALUES (?, ?, ?)]. An existing (batch_id, session_id) is skipped by
    OR IGNORE. A row whose batch_id has no parent breaks the foreign key,
    which OR IGNORE does not cover ([PRAGMA foreign_keys = ON] in
    [__init__]): sqlite3 raises IntegrityError. *)
Definition insert_or_ignore_batch_session (e : engine)
  (batch_id session_id state : string) (db : database) : option database :=
  if existsb (fun r => (s_batch_id r =? batch_id)%string
                       && (s_session_id r =? session_id)%string)
             (batch_session db)
  then Some db
  else if existsb (fun r => (p_batch_id r =? batch_id)%string) (batch_process db)
  then Some {| batch_process := batch_process db;
               batch_session :=
                 batch_session db ++
                 [{| s_batch_id := batch_id;
                     s_session_id := session_id;
                     s_state := state;
                     s_created_at := strftime_now e;
                     s_updated_at := strftime_now e;
                     s_deleted_at := None |}] |}
  else None.

(** [DELETE FROM batch_process WHERE batch_id = ?], with the cascade of
    the foreign key: the sessions of every deleted row go with it. *)
Definition delete_batch_process (batch_id : string) (db : database)
  : option database :=
  match select_where where_batch_id [PyStr batch_id] (batch_process db),
        delete_where where_batch_id [PyStr batch_id] (batch_process db) with
  | Some deleted, Some kept =>
      Some {| batch_process := kept;
              batch_session :=
                filter (fun s =>
                          negb (existsb
                                  (fun p => (p_batch_id p =? s_batch_id s)%string)
                                  deleted))
                       (batch_session db) |}
  | _, _ => None
  end.

(** [UPDATE batch_process SET canceled = 1 WHERE batch_id = ?] and the
    trigger [tg_batch_process_updated_at]. *)
Definition update_batch_process_canceled (e : engine)
  (batch_id : string) (db : database) : option database :=
  option_map
    (fun rows => {| batch_process := rows; batch_session := batch_session db |})
    (update_where
       (fun r => {| p_batch_id := p_batch_id r;
                    p_batches := p_batches r;
                    p_graph := p_graph r;
                    p_canceled := 1;
                    p_created_at := p_created_at r;
                    p_updated_at := current_timestamp e;
                    p_deleted_at := p_deleted_at r |})
       where_batch_id [PyStr batch_id] (batch_process db)).

(** [UPDATE batch_session SET state = ? WHERE batch_id = ? AND
    session_id = ?] and the trigger [tg_batch_session_updated_at]. *)
Definition update_batch_session_state (e : engine)
  (state batch_id session_id : string) (db : database) : option database :=
  option_map
    (fun rows => {| batch_process := batch_process db; batch_session := rows |})
    (update_where
       (fun r => {| s_batch_id := s_batch_id r;
                    s_session_id := s_session_id r;
                    s_state := state;
                    s_created_at := s_created_at r;
                    s_updated_at := strftime_now e;
                    s_deleted_at := s_deleted_at r |})
       where_batch_id_session_id
       [PyStr state; PyStr batch_id; PyStr session_id] (batch_session db)).

(** [execute] then [commit] inside [try]: [None] is sqlite3.Error, after
    which the handler's [rollback] leaves the database as the method found
    it (no method leaves a transaction open). *)
Definition transaction (e : engine) (stmt : database -> option database)
  (db : database) : option database :=
  if write_error e then None else stmt db.

(** [execute] of a SELECT then [fetchone]/[fetchall]. *)
Definition query {row : Type} (e : engine) (rows : option (list row))
  : option (list row) :=
  if read_error e then None else rows.

(** ** Validators of the pydantic fields *)

(** A [str] field: a str is kept, an int is converted, None is refused. *)
Definition str_validator (v : pyvalue) : option string :=
  match v with
  | PyStr s => Some s
  | PyInt z => Some (NilZero.string_of_int (Z.to_int z))
  | PyNone => None
  end.

(** An [Optional[str]] field. *)
Definition optional_str_validator (v : pyvalue) : option (option string) :=
  match v with
  | PyNone => Some None
  | _ => option_map Some (str_validator v)
  end.

(** The [Literal] field [state]. *)
Definition state_validator (v : pyvalue) : option SessionState :=
  match v with
  | PyStr s => state_of_text s
  | _ => None
  end.

(** [v == 1]. *)
Definition equals_one (v : pyvalue) : bool :=
  match v with
  | PyInt 1 => true
  | _ => false
  end.

(** The text handed to a JSON parser: anything but a str raises. *)
Definition raw_text (v : pyvalue) : option string :=
  match v with
  | PyStr s => Some s
  | _ => None
  end.

(** [_deserialize_batch_session] *)
Definition _deserialize_batch_session (session_dict : dict)
  : result BatchSession.t :=
  let batch_id := dict_get session_dict "batch_id" (PyStr "unknown") in
  let session_id := dict_get session_dict "session_id" (PyStr "unknown") in
  let state := dict_get session_dict "state" (PyStr "unknown") in
  let* batch_id := decoded (str_validator batch_id) in
  let* session_id := decoded (str_validator session_id) in
  let* state := decoded (state_validator state) in
  Ok {| BatchSession.batch_id := batch_id;
        BatchSession.session_id := session_id;
        BatchSession.state := state |}.

(** [get_session] *)
Definition get_session (e : engine) (db : database) (session_id : string)
  : result BatchSession.t :=
  match query e (select_where where_session_id [PyStr session_id]
                   (batch_session db)) with
  | None => Raise BatchSessionNotFoundException
  | Some rows =>
      match fetchone rows with
      | None => Raise BatchSessionNotFoundException
      | Some r => _deserialize_batch_session (as_dict r)
      end
  end.

(** The rows of one batch as the index
    [idx_batch_session_batch_id_created_at] gives them: by created_at
    (texts compared byte by byte), rows of equal created_at in rowid
    order. *)
Fixpoint insert_by_created_at (r : batch_session_row)
  (rows : list batch_session_row) : list batch_session_row :=
  match rows with
  | [] => [r]
  | x :: rows' =>
      if String.leb (s_created_at r) (s_created_at x)
      then r :: rows
      else x :: insert_by_created_at r rows'
  end.

Definition by_created_at (rows : list batch_session_row)
  : list batch_session_row :=
  fold_right insert_by_created_at [] rows.

(** [get_created_session]. The statement has no ORDER BY; the engine
    reads the sessions of the batch through the index on
    (batch_id, created_at), so [fetchone] gives the created session with
    the smallest created_at, the first inserted among equals. *)
Definition get_created_session (e : engine) (db : database) (batch_id : string)
  : result BatchSession.t :=
  match query e (option_map by_created_at
                   (select_where where_created_session [PyStr batch_id]
                      (batch_session db))) with
  | None => Raise BatchSessionNotFoundException
  | Some rows =>
      match fetchone rows with
      | None => Raise BatchSessionNotFoundException
      | Some r => _deserialize_batch_session (as_dict r)
      end
  end.

(** [map(lambda r: self._deserialize_batch_session(dict(r)), result)] *)
Fixpoint deserialize_all (rows : list batch_session_row)
  : result (list BatchSession.t) :=
  match rows with
  | [] => Ok []
  | r :: rows' =>
      let* s := _deserialize_batch_session (as_dict r) in
      let* ss := deserialize_all rows' in
      Ok (s :: ss)
  end.

(** [get_created_sessions]. [fetchall] returns a list, never None, so the
    [result is None] test does not fire. *)
Definition get_created_sessions (e : engine) (db : database) (batch_id : string)
  : result (list BatchSession.t) :=
  match query e (select_where where_created_sessions [PyStr batch_id]
                   (batch_session db)) with
  | None => Raise BatchSessionNotFoundException
  | Some rows => deserialize_all rows
  end.

(** [create_session] *)
Definition create_session (e : engine) (db : database) (session : BatchSession.t)
  : database * result BatchSession.t :=
  match transaction e
          (insert_or_ignore_batch_session e
             (BatchSession.batch_id session)
             (BatchSession.session_id session)
             (state_text (BatchSession.state session))) db with
  | None => (db, Raise BatchSessionSaveException)
  | Some db' => (db', get_session e db' (BatchSession.session_id session))
  end.

(** [update_session_state]. [changes.state] is a required Literal, so the
    [is not None] test always holds. *)
Definition update_session_state (e : engine) (db : database)
  (batch_id session_id : string) (changes : BatchSessionChanges.t)
  : database * result BatchSession.t :=
  match transaction e
          (update_batch_session_state e
             (state_text (BatchSessionChanges.state changes))
             batch_id session_id) db with
  | None => (db, Raise BatchSessionSaveException)
  | Some db' => (db', get_session e db' session_id)
  end.

(** [delete]. Both handlers ([sqlite3.Error] and [Exception]) roll back
    and raise the same exception. *)
Definition delete (e : engine) (db : database) (batch_id : string)
  : database * result unit :=
  match transaction e (delete_batch_process batch_id) db with
  | None => (db, Raise BatchProcessDeleteException)
  | Some db' => (db', Ok tt)
  end.

(** [cancel] *)
Definition cancel (e : engine) (db : database) (batch_id : string)
  : database * result unit :=
  match transaction e (update_batch_process_canceled e batch_id) db with
  | None => (db, Raise BatchSessionSaveException)
  | Some db' => (db', Ok tt)
  end.

(** ** Batch processes: the methods that serialize *)

Section BatchProcessStorage.

Context {Graph BatchDataType : Type}.
Variable ser : Serializers Graph BatchDataType.

(** [_deserialize_batch_process] *)
Definition _deserialize_batch_process (session_dict : dict)
  : result (BatchProcess.t Graph BatchDataType) :=
  let batch_id := dict_get session_dict "batch_id" (PyStr "unknown") in
  let batches_raw := dict_get session_dict "batches" (PyStr "unknown") in
  let graph_raw := dict_get session_dict "graph" (PyStr "unknown") in
  let canceled := dict_get session_dict "canceled" (PyInt 0) in
  let* batches_text := decoded (raw_text batches_raw) in
  let* batches := decoded (json_loads ser batches_text) in
  let* batches := decoded (traverse (parse_raw_as_Batch ser) batches) in
  let* graph_text := decoded (raw_text graph_raw) in
  let* graph := decoded (parse_raw_as_Graph ser graph_text) in
  let* batch_id := decoded (optional_str_validator batch_id) in
  Ok {| BatchProcess.batch_id := batch_id;
        BatchProcess.batches := batches;
        BatchProcess.graph := graph;
        BatchProcess.canceled := equals_one canceled |}.

(** [get]. The annotation of [batch_id] is [str]; [save] passes the
    [Optional[str]] of its argument, and None is bound as NULL. *)
Definition get (e : engine) (db : database) (batch_id : option string)
  : result (BatchProcess.t Graph BatchDataType) :=
  match query e (select_where where_batch_id [nullable batch_id]
                   (batch_process db)) with
  | None => Raise BatchProcessNotFoundException
  | Some rows =>
      match fetchone rows with
      | None => Raise BatchProcessNotFoundException
      | Some r => _deserialize_batch_process (as_dict r)
      end
  end.

(** [save] *)
Definition save (e : engine) (db : database)
  (batch_process : BatchProcess.t Graph BatchDataType)
  : database * result (BatchProcess.t Graph BatchDataType) :=
  let batches := map (batch_json ser) (BatchProcess.batches batch_process) in
  match transaction e
          (insert_or_ignore_batch_process e
             (BatchProcess.batch_id batch_process)
             (json_dumps ser batches)
             (graph_json ser (BatchProcess.graph batch_process))) db with
  | None => (db, Raise BatchProcessSaveException)
  | Some db' => (db', get e db' (BatchProcess.batch_id batch_process))
  end.

(** ** Sequences of calls

    A call of the public interface [BatchProcessStorageBase], and the
    database after a sequence of calls, each with what the engine
    contributed to it. *)
Inductive call : Type :=
| Delete (batch_id : string)
| Save (batch_process : BatchProcess.t Graph BatchDataType)
| Get (batch_id : string)
| Cancel (batch_id : string)
| CreateSession (session : BatchSession.t)
| GetSession (session_id : string)
| GetCreatedSession (batch_id : string)
| GetCreatedSessions (batch_id : string)
| UpdateSessionState (batch_id session_id : string) (changes : BatchSessionChanges.t).

Definition step (e : engine) (c : call) (db : database) : database :=
  match c with
  | Delete batch_id => fst (delete e db batch_id)
  | Save batch_process => fst (save e db batch_process)
  | Cancel batch_id => fst (cancel e db batch_id)
  | CreateSession session => fst (create_session e db session)
  | UpdateSessionState batch_id session_id changes =>
      fst (update_session_state e db batch_id session_id changes)
  | Get _ | GetSession _ | GetCreatedSession _ | GetCreatedSessions _ => db
  end.

Fixpoint run (calls : list (engine * call)) (db : database) : database :=
  match calls with
  | [] => db
  | (e, c) :: calls' => run calls' (step e c db)
  end.

(** Whether a call deletes the batch [batch_id]. *)
Definition deletes (batch_id : string) (c : call) : bool :=
  match c with
  | Delete b => (b =? batch_id)%string
  | _ => false
  end.

End BatchProcessStorage.

(** ** Vocabulary of the properties *)

(** A row of [batch_process] has this batch_id. *)
Definition has_process (db : database) (batch_id : string) : bool :=
  existsb (fun r => (p_batch_id r =? batch_id)%string) (batch_process db).

(** A row of [batch_session] has this (batch_id, session_id). *)
Definition has_session (db : database) (batch_id session_id : string) : bool :=
  existsb (fun r => (s_batch_id r =? batch_id)%string
                    && (s_session_id r =? session_id)%string)
          (batch_session db).

(** The row of a batch_id, and the row of a (batch_id, session_id). *)
Definition find_process (db : database) (batch_id : string)
  : option batch_process_row :=
  find (fun r => (p_batch_id r =? batch_id)%string) (batch_process db).

Definition find_session (db : database) (batch_id session_id : string)
  : option batch_session_row :=
  find (fun r => (s_batch_id r =? batch_id)%string
                 && (s_session_id r =? session_id)%string)
       (batch_session db).

(** The session_id is used by the sessions of [batch_id] only. *)
Definition session_id_only_in (db : database) (batch_id session_id : string)
  : bool :=
  forallb (fun r => negb (s_session_id r =? session_id)%string
                    || (s_batch_id r =? batch_id)%string)
          (batch_session db).

(** No session has this session_id. *)
Definition session_id_unused (db : database) (session_id : string) : bool :=
  forallb (fun r => negb (s_session_id r =? session_id)%string)
          (batch_session db).

(** The foreign key of [batch_session]: every session has its batch. *)
Definition foreign_keys_ok (db : database) : bool :=
  forallb (fun s => has_process db (s_batch_id s)) (batch_session db).

(** The primary keys: one row per batch_id, one per (batch_id, session_id). *)
Definition primary_keys_ok (db : database) : Prop :=
  NoDup (map p_batch_id (batch_process db)) /\
  NoDup (map (fun s => (s_batch_id s, s_session_id s)) (batch_session db)).

(** The columns of a batch that no statement assigns after the insert. *)
Definition same_process_data (r r' : batch_process_row) : Prop :=
  p_batch_id r' = p_batch_id r /\
  p_batches r' = p_batches r /\
  p_graph r' = p_graph r /\
  p_created_at r' = p_created_at r /\
  p_deleted_at r' = p_deleted_at r.

Definition same_session_data (s s' : batch_session_row) : Prop :=
  s_batch_id s' = s_batch_id s /\
  s_session_id s' = s_session_id s /\
  s_created_at s' = s_created_at s /\
  s_deleted_at s' = s_deleted_at s.

(** The serializers give back what [save] wrote for this batch process. *)
Definition decodes_back {Graph BatchDataType : Type}
  (ser : Serializers Graph BatchDataType)
  (p : BatchProcess.t Graph BatchDataType) : Prop :=
  json_loads ser (json_dumps ser (map (batch_json ser) (BatchProcess.batches p)))
    = Some (map (batch_json ser) (BatchProcess.batches p)) /\
  traverse (parse_raw_as_Batch ser) (map (batch_json ser) (BatchProcess.batches p))
    = Some (BatchProcess.batches p) /\
  parse_raw_as_Graph ser (graph_json ser (BatchProcess.graph p))
    = Some (BatchProcess.graph p).

(** A session of the batch is stored in state created. *)
Definition has_created (db : database) (batch_id : string) : bool :=
  existsb (fun r => (s_batch_id r =? batch_id)%string
                    && (s_state r =? "created")%string)
          (batch_session db).

(** The created session the engine gives first: a created session of the
    batch when there is one. *)
Definition first_created (db : database) (batch_id : string) : option batch_session_row :=
  fetchone (by_created_at
              (filter (fun r => (s_batch_id r =? batch_id)%string
                                && (s_state r =? "created")%string)
                      (batch_session db))).

(** Every stored state is a member of the Literal. *)
Definition states_ok (db : database) : bool :=
  forallb (fun r => match state_of_text (s_state r) with
                    | Some _ => true
                    | None => false
                    end)
          (batch_session db).

(** Whether a call cancels the batch [batch_id]. *)
Definition cancels {Graph BatchDataType : Type} (batch_id : string)
  (c : @call Graph BatchDataType) : bool :=
  match c with
  | Cancel b => (b =? batch_id)%string
  | _ => false
  end.

(** A batch process with its canceled flag set. *)
Definition as_canceled {Graph BatchDataType : Type}
  (p : BatchProcess.t Graph BatchDataType) : BatchProcess.t Graph BatchDataType :=
  {| BatchProcess.batch_id := BatchProcess.batch_id p;
     BatchProcess.batches := BatchProcess.batches p;
     BatchProcess.canceled := true;
     BatchProcess.graph := BatchProcess.graph p |}.

(** The row [create_session] inserts. *)
Definition inserted_session (e : engine) (s : BatchSession.t) : batch_session_row :=
  {| s_batch_id := BatchSession.batch_id s;
     s_session_id := BatchSession.session_id s;
     s_state := state_text (BatchSession.state s);
     s_created_at := strftime_now e;
     s_updated_at := strftime_now e;
     s_deleted_at := None |}.


(** ** A small instance

    Serializers for graphs named by a string and batches without data
    entries, and a scenario to run the store on. *)
Module Example.

Definition Graph : Type := string.
Definition BatchDataType : Type := Z.

(** Drops a closing character from the end of a text. *)
Fixpoint strip_last (close : ascii) (s : string) : option string :=
  match s with
  | EmptyString => None
  | String c EmptyString => if Ascii.eqb c close then Some EmptyString else None
  | String c r => option_map (String c) (strip_last close r)
  end.

(** A graph is written between braces. *)
Definition write_graph (g : Graph) : string := "{" ++ g ++ "}".

Definition read_graph (s : string) : option Graph :=
  match s with
  | String "{" r => strip_last "}" r
  | _ => None
  end.

(** A batch without data is written as its node id between braces. *)
Definition write_batch (b : Batch.t BatchDataType) : string :=
  "{" ++ Batch.node_id b ++ "}".

Definition read_batch (s : string) : option (Batch.t BatchDataType) :=
  match s with
  | String "{" r =>
      option_map (fun n => {| Batch.data := []; Batch.node_id := n |})
                 (strip_last "}" r)
  | _ => None
  end.

(** A list of texts is written between brackets, a semicolon after each. *)
Definition write_list (l : list string) : string :=
  ("[" ++ String.concat EmptyString (map (fun s => (s ++ ";")%string) l) ++ "]")%string.

Fixpoint items (s current : string) (done : list string) : option (list string) :=
  match s with
  | EmptyString => None
  | String c r =>
      if Ascii.eqb c "]" then
        match r, current with
        | EmptyString, EmptyString => Some (rev done)
        | _, _ => None
        end
      else if Ascii.eqb c ";" then items r EmptyString (current :: done)
      else items r (current ++ String c EmptyString) done
  end.

Definition read_list (s : string) : option (list string) :=
  match s with
  | String "[" r => items r EmptyString []
  | _ => None
  end.

Definition ser : Serializers Graph BatchDataType :=
  {| batch_json := write_batch;
     parse_raw_as_Batch := read_batch;
     graph_json := write_graph;
     parse_raw_as_Graph := read_graph;
     json_dumps := write_list;
     json_loads := read_list |}.

(** An engine that works, and engines whose write or read fails. *)
Definition working : engine :=
  {| strftime_now := "2023-08-01 10:00:00.000";
     current_timestamp := "2023-08-01 10:00:00";
     write_error := false;
     read_error := false |}.

Definition later : engine :=
  {| strftime_now := "2023-08-01 10:05:00.000";
     current_timestamp := "2023-08-01 10:05:00";
     write_error := false;
     read_error := false |}.

Definition failing : engine :=
  {| strftime_now := "2023-08-01 10:00:00.000";
     current_timestamp := "2023-08-01 10:00:00";
     write_error := true;
     read_error := false |}.

Definition batch (n : string) : Batch.t BatchDataType :=
  {| Batch.data := []; Batch.node_id := n |}.

(** Batch B1 with two batch entries, another payload under the same id,
    and batch B2. *)
Definition B1 : BatchProcess.t Graph BatchDataType :=
  {| BatchProcess.batch_id := Some "B1";
     BatchProcess.batches := [batch "n1"; batch "n2"];
     BatchProcess.canceled := false;
     BatchProcess.graph := "g1" |}.

Definition B1_other : BatchProcess.t Graph BatchDataType :=
  {| BatchProcess.batch_id := Some "B1";
     BatchProcess.batches := [batch "n3"];
     BatchProcess.canceled := true;
     BatchProcess.graph := "g3" |}.

Definition B1_canceled : BatchProcess.t Graph BatchDataType :=
  {| BatchProcess.batch_id := Some "B1";
     BatchProcess.batches := [batch "n1"; batch "n2"];
     BatchProcess.canceled := true;
     BatchProcess.graph := "g1" |}.

Definition B2 : BatchProcess.t Graph BatchDataType :=
  {| BatchProcess.batch_id := Some "B2";
     BatchProcess.batches := [];
     BatchProcess.canceled := false;
     BatchProcess.graph := "g2" |}.

Definition session (b s : string) (st : SessionState) : BatchSession.t :=
  {| BatchSession.batch_id := b;
     BatchSession.session_id := s;
     BatchSession.state := st |}.

Definition to (st : SessionState) : BatchSessionChanges.t :=
  {| BatchSessionChanges.state := st |}.

(** B1 with its sessions S1 and S2, both created. *)
Definition one_batch : database :=
  run ser [(working, Save B1);
           (working, CreateSession (session "B1" "S1" created));
           (working, CreateSession (session "B1" "S2" created))] empty.

(** B1 and B2, each with a session whose session_id is S1. *)
Definition shared_session_id : database :=
  run ser [(working, Save B1);
           (working, Save B2);
           (working, CreateSession (session "B1" "S1" created));
           (working, CreateSession (session "B2" "S1" created))] empty.

End Example.

(** More of the scenario: a batch process without batch_id, and B1 with
    S1 completed and S2 created. *)
Module Scenario2.

Definition anonymous : BatchProcess.t Example.Graph Example.BatchDataType :=
  {| BatchProcess.batch_id := None;
     BatchProcess.batches := [Example.batch "n1"];
     BatchProcess.canceled := false;
     BatchProcess.graph := "g0" |}.

Definition one_completed : database :=
  run Example.ser
      [(Example.later,
        UpdateSessionState "B1" "S1" (Example.to completed))]
      Example.one_batch.

End Scenario2.

(** * Properties *)

(** ** The WHERE clauses on rows *)

Lemma process_matches_batch_id (r : batch_process_row) (b : string) :
  matches where_batch_id [PyStr b] r = (p_batch_id r =? b)%string.
Proof.
  unfold matches. cbn.
  destruct (p_batch_id r =? b)%string; reflexivity.
Qed.

Lemma process_matches_null (r : batch_process_row) :
  matches where_batch_id [PyNone] r = false.
Proof. reflexivity. Qed.

Lemma session_matches_session_id (r : batch_session_row) (s : string) :
  matches where_session_id [PyStr s] r = (s_session_id r =? s)%string.
Proof.
  unfold matches. cbn.
  destruct (s_session_id r =? s)%string; reflexivity.
Qed.

Lemma session_matches_pair (r : batch_session_row) (st b s : string) :
  matches where_batch_id_session_id [PyStr st; PyStr b; PyStr s] r
  = ((s_batch_id r =? b)%string && (s_session_id r =? s)%string).
Proof.
  unfold matches. cbn.
  destruct (s_batch_id r =? b)%string, (s_session_id r =? s)%string; reflexivity.
Qed.

(** ** Lists *)

Lemma filter_none {A : Type} (f : A -> bool) (l : list A) :
  existsb f l = false -> filter f l = [].
Proof.
  induction l as [|a l IH]; simpl; [reflexivity|].
  destruct (f a); simpl; [discriminate|exact IH].
Qed.

Lemma filter_all {A : Type} (f : A -> bool) (l : list A) :
  forallb f l = true -> filter f l = l.
Proof.
  induction l as [|a l IH]; simpl; [reflexivity|].
  destruct (f a); simpl; [|discriminate].
  intros H. now rewrite IH.
Qed.

Lemma map_unchanged {A : Type} (f : A -> bool) (g : A -> A) (l : list A) :
  existsb f l = false -> map (fun a => if f a then g a else a) l = l.
Proof.
  induction l as [|a l IH]; simpl; [reflexivity|].
  destruct (f a); simpl; [discriminate|].
  intros H. now rewrite IH.
Qed.

Lemma find_app_some {A : Type} (f : A -> bool) (l l' : list A) (a : A) :
  find f l = Some a -> find f (l ++ l') = Some a.
Proof.
  induction l as [|x l IH]; simpl; [discriminate|].
  destruct (f x); [trivial|exact IH].
Qed.

Lemma find_filter_same {A : Type} (f g : A -> bool) (l : list A) :
  (forall x, f x = true -> g x = true) -> find f (filter g l) = find f l.
Proof.
  intros Hfg. induction l as [|x l IH]; simpl; [reflexivity|].
  destruct (f x) eqn:Fx.
  - rewrite (Hfg x Fx). simpl. now rewrite Fx.
  - destruct (g x); simpl; [rewrite Fx|]; exact IH.
Qed.

Lemma find_map_keyed {A : Type} (f h : A -> bool) (g : A -> A) (l : list A) (a : A) :
  (forall x, f (g x) = f x) ->
  find f l = Some a ->
  find f (map (fun x => if h x then g x else x) l) = Some (if h a then g a else a).
Proof.
  intros Hk. induction l as [|x l IH]; simpl; [discriminate|].
  destruct (f x) eqn:Fx.
  - intros E; injection E as <-.
    destruct (h x); [rewrite Hk|]; now rewrite Fx.
  - intros E. destruct (h x); [rewrite Hk|]; rewrite Fx; exact (IH E).
Qed.

Lemma existsb_find {A : Type} (f : A -> bool) (l : list A) :
  existsb f l = true -> exists a, find f l = Some a /\ f a = true.
Proof.
  induction l as [|x l IH]; simpl; [discriminate|].
  destruct (f x) eqn:Fx.
  - intros _. now exists x.
  - exact IH.
Qed.

(** ** The statements as list operations *)

(** The statement prepares: its columns resolve. *)
Ltac prepared :=
  match goal with
  | |- context [resolves ?c ?w] => change (resolves c w) with true
  end;
  cbv beta iota.

Lemma select_process (b : string) (rows : list batch_process_row) :
  select_where where_batch_id [PyStr b] rows
  = Some (filter (fun r => (p_batch_id r =? b)%string) rows).
Proof.
  unfold select_where. prepared. f_equal.
  apply filter_ext. intros r. apply process_matches_batch_id.
Qed.

Lemma select_session (s : string) (rows : list batch_session_row) :
  select_where where_session_id [PyStr s] rows
  = Some (filter (fun r => (s_session_id r =? s)%string) rows).
Proof.
  unfold select_where. prepared. f_equal.
  apply filter_ext. intros r. apply session_matches_session_id.
Qed.

(** The session found by its session_id alone: the first in the table. *)
Lemma fetchone_filter {A : Type} (f : A -> bool) (l : list A) :
  fetchone (filter f l) = find f l.
Proof.
  induction l as [|x l IH]; simpl; [reflexivity|].
  destruct (f x); [reflexivity|exact IH].
Qed.

Lemma get_session_first (e : engine) (db : database) (sid : string) :
  read_error e = false ->
  get_session e db sid =
  match find (fun r => (s_session_id r =? sid)%string) (batch_session db) with
  | None => Raise BatchSessionNotFoundException
  | Some r => _deserialize_batch_session (as_dict r)
  end.
Proof.
  intros R. unfold get_session, query. rewrite R, select_session, fetchone_filter.
  reflexivity.
Qed.

Lemma cascade_of_deleted (b : string) (s : batch_session_row)
  (rows : list batch_process_row) :
  existsb (fun p => (p_batch_id p =? s_batch_id s)%string)
          (filter (fun r => (p_batch_id r =? b)%string) rows)
  = ((s_batch_id s =? b)%string
     && existsb (fun r => (p_batch_id r =? b)%string) rows).
Proof.
  induction rows as [|r rows IH]; simpl.
  - now rewrite andb_false_r.
  - destruct (String.eqb_spec (p_batch_id r) b) as [E|N]; simpl.
    + rewrite IH, E. rewrite (String.eqb_sym b).
      destruct (s_batch_id s =? b)%string; reflexivity.
    + exact IH.
Qed.

Lemma delete_ok (e : engine) (db : database) (b : string) :
  write_error e = false ->
  delete e db b =
  ({| batch_process :=
        filter (fun r => negb (p_batch_id r =? b)%string) (batch_process db);
      batch_session :=
        filter (fun s => negb ((s_batch_id s =? b)%string && has_process db b))
               (batch_session db) |},
   Ok tt).
Proof.
  intros W. unfold delete, transaction, delete_batch_process. rewrite W.
  rewrite select_process. unfold delete_where. prepared.
  f_equal. f_equal.
  - apply filter_ext. intros r. now rewrite process_matches_batch_id.
  - apply filter_ext. intros s. now rewrite cascade_of_deleted.
Qed.

Lemma cancel_ok (e : engine) (db : database) (b : string) :
  write_error e = false ->
  cancel e db b =
  ({| batch_process :=
        map (fun r => if (p_batch_id r =? b)%string
                      then {| p_batch_id := p_batch_id r;
                              p_batches := p_batches r;
                              p_graph := p_graph r;
                              p_canceled := 1;
                              p_created_at := p_created_at r;
                              p_updated_at := current_timestamp e;
                              p_deleted_at := p_deleted_at r |}
                      else r)
            (batch_process db);
      batch_session := batch_session db |},
   Ok tt).
Proof.
  intros W. unfold cancel, transaction, update_batch_process_canceled. rewrite W.
  unfold update_where. prepared. unfold option_map. f_equal. f_equal.
  apply map_ext. intros r. now rewrite process_matches_batch_id.
Qed.

Lemma update_ok (e : engine) (db : database) (b s : string)
  (changes : BatchSessionChanges.t) :
  write_error e = false ->
  fst (update_session_state e db b s changes) =
  {| batch_process := batch_process db;
     batch_session :=
       map (fun r => if (s_batch_id r =? b)%string && (s_session_id r =? s)%string
                     then {| s_batch_id := s_batch_id r;
                             s_session_id := s_session_id r;
                             s_state := state_text (BatchSessionChanges.state changes);
                             s_created_at := s_created_at r;
                             s_updated_at := strftime_now e;
                             s_deleted_at := s_deleted_at r |}
                     else r)
           (batch_session db) |}
  /\ snd (update_session_state e db b s changes)
     = get_session e (fst (update_session_state e db b s changes)) s.
Proof.
  intros W.
  unfold update_session_state, transaction, update_batch_session_state.
  rewrite W. unfold update_where. prepared. unfold option_map, fst, snd.
  split; [|reflexivity].
  f_equal. apply map_ext. intros r. now rewrite session_matches_pair.
Qed.

Lemma state_of_text_of_state (c : SessionState) :
  state_of_text (state_text c) = Some c.
Proof. destruct c; reflexivity. Qed.

Lemma find_none {A : Type} (f : A -> bool) (l : list A) :
  existsb f l = false -> find f l = None.
Proof.
  induction l as [|x l IH]; simpl; [reflexivity|].
  destruct (f x); [discriminate|exact IH].
Qed.

Lemma find_app_none {A : Type} (f : A -> bool) (l l' : list A) :
  find f l = None -> find f (l ++ l') = find f l'.
Proof.
  induction l as [|x l IH]; simpl; [reflexivity|].
  destruct (f x); [discriminate|exact IH].
Qed.

Lemma find_none_all {A : Type} (f : A -> bool) (l : list A) :
  (forall x, In x l -> f x = false) -> find f l = None.
Proof.
  induction l as [|x l IH]; simpl; [reflexivity|].
  intros H. rewrite (H x (or_introl eq_refl)). apply IH.
  intros y Hy. apply H. now right.
Qed.

Lemma existsb_filter_negb {A : Type} (f : A -> bool) (l : list A) :
  existsb f (filter (fun x => negb (f x)) l) = false.
Proof.
  induction l as [|x l IH]; simpl; [reflexivity|].
  destruct (f x) eqn:Fx; simpl; [|rewrite Fx]; exact IH.
Qed.

Lemma find_filter_none {A : Type} (f g : A -> bool) (l : list A) :
  (forall x, f x = true -> g x = false) -> find f (filter g l) = None.
Proof.
  intros Hfg. apply find_none_all. intros x Hx.
  apply filter_In in Hx. destruct Hx as [_ Gx].
  destruct (f x) eqn:Fx; [|reflexivity].
  rewrite (Hfg x Fx) in Gx. discriminate.
Qed.

Lemma NoDup_map_filter {A B : Type} (k : A -> B) (f : A -> bool) (l : list A) :
  NoDup (map k l) -> NoDup (map k (filter f l)).
Proof.
  induction l as [|x l IH]; simpl; [trivial|].
  intros ND. inversion ND as [|? ? Hx ND']; subst.
  destruct (f x); simpl; [|now apply IH].
  constructor; [|now apply IH].
  intros Hin. apply Hx. apply in_map_iff in Hin. destruct Hin as (y & Ky & Hy).
  apply filter_In in Hy. apply in_map_iff. exists y. tauto.
Qed.

Lemma NoDup_map_snoc {A B : Type} (k : A -> B) (l : list A) (a : A) :
  NoDup (map k l) ->
  (forall x, In x l -> k x <> k a) ->
  NoDup (map k (l ++ [a])).
Proof.
  induction l as [|x l IH]; simpl; intros ND Fresh.
  - constructor; [intros []|constructor].
  - inversion ND as [|? ? Hx ND']; subst. constructor.
    + rewrite map_app, in_app_iff. simpl. intros [Hin|[Hin|[]]].
      * now apply Hx.
      * apply (Fresh x); [now left|now symmetry].
    + apply IH; [exact ND'|]. intros y Hy. apply Fresh. now right.
Qed.

Lemma map_map_keyed {A B : Type} (k : A -> B) (h : A -> bool) (g : A -> A)
  (l : list A) :
  (forall x, k (g x) = k x) ->
  map k (map (fun x => if h x then g x else x) l) = map k l.
Proof.
  intros Hk. rewrite map_map. apply map_ext. intros x.
  destruct (h x); [apply Hk|reflexivity].
Qed.

(** Under the primary key, a row is the one its key finds. *)
Lemma find_by_key {A B : Type} (k : A -> B) (f : A -> bool) (l : list A) (a : A) :
  NoDup (map k l) ->
  (forall x, f x = true <-> k x = k a) ->
  In a l ->
  find f l = Some a.
Proof.
  intros ND Hf. induction l as [|x l IH]; simpl; [intros []|].
  inversion ND as [|? ? Hx ND']; subst.
  intros [->|Hin].
  - now rewrite (proj2 (Hf a) eq_refl).
  - destruct (f x) eqn:Fx; [|now apply IH].
    exfalso. apply Hx. apply Hf in Fx. rewrite Fx. now apply in_map.
Qed.

Lemma process_found (db : database) (r : batch_process_row) :
  primary_keys_ok db ->
  In r (batch_process db) ->
  find_process db (p_batch_id r) = Some r.
Proof.
  intros [PK _] Hin. apply (find_by_key p_batch_id); [exact PK| |exact Hin].
  intros x. apply String.eqb_eq.
Qed.

Lemma session_found (db : database) (r : batch_session_row) :
  primary_keys_ok db ->
  In r (batch_session db) ->
  find_session db (s_batch_id r) (s_session_id r) = Some r.
Proof.
  intros [_ PK] Hin.
  apply (find_by_key (fun s => (s_batch_id s, s_session_id s)));
    [exact PK| |exact Hin].
  intros x. rewrite andb_true_iff, !String.eqb_eq. split.
  - intros [-> ->]. reflexivity.
  - intros E. injection E as -> ->. now split.
Qed.

(** ** Batch processes *)

Section StoreProperties.

Context {Graph BatchDataType : Type}.
Variable ser : Serializers Graph BatchDataType.

Local Abbreviation BatchProcess := (BatchProcess.t Graph BatchDataType).

(** [get] reads the first row of the batch_id. *)
Lemma get_first (e : engine) (db : database) (b : string) :
  read_error e = false ->
  get ser e db (Some b) =
  match find_process db b with
  | None => Raise BatchProcessNotFoundException
  | Some r => _deserialize_batch_process ser (as_dict r)
  end.
Proof.
  intros R. unfold get, query. rewrite R. simpl nullable.
  rewrite select_process, fetchone_filter. reflexivity.
Qed.

(** Only batch_id, batches, graph and canceled of a row are decoded. *)
Lemma deserialize_batch_process_row (r : batch_process_row) :
  _deserialize_batch_process ser (as_dict r) =
  let* batches := decoded (json_loads ser (p_batches r)) in
  let* batches := decoded (traverse (parse_raw_as_Batch ser) batches) in
  let* graph := decoded (parse_raw_as_Graph ser (p_graph r)) in
  Ok {| BatchProcess.batch_id := Some (p_batch_id r);
        BatchProcess.batches := batches;
        BatchProcess.graph := graph;
        BatchProcess.canceled := equals_one (PyInt (p_canceled r)) |}.
Proof. reflexivity. Qed.

Lemma save_existing (e : engine) (db : database) (p : BatchProcess) (b : string) :
  BatchProcess.batch_id p = Some b ->
  has_process db b = true ->
  save ser e db p =
  (db, if write_error e then Raise BatchProcessSaveException
       else get ser e db (Some b)).
Proof.
  intros Hid Hrow. unfold save, transaction, insert_or_ignore_batch_process.
  destruct (write_error e); [reflexivity|].
  rewrite Hid. unfold has_process in Hrow. rewrite Hrow. reflexivity.
Qed.

Lemma create_session_existing (e : engine) (db : database) (s : BatchSession.t) :
  has_session db (BatchSession.batch_id s) (BatchSession.session_id s) = true ->
  create_session e db s =
  (db, if write_error e then Raise BatchSessionSaveException
       else get_session e db (BatchSession.session_id s)).
Proof.
  intros Hrow. unfold create_session, transaction, insert_or_ignore_batch_session.
  destruct (write_error e); [reflexivity|].
  unfold has_session in Hrow. rewrite Hrow. reflexivity.
Qed.

(** C1. Creation is idempotent. When a row with the batch_id of [p]
    exists, [save] leaves the database as it was, so the row keeps its
    batches, graph and canceled and the payload of [p] is discarded; what
    [save] returns is the row as [get] reads it. When a row with the
    (batch_id, session_id) of [s] exists, [create_session] leaves the
    database as it was, so the row keeps its state. *)
Theorem creation_is_idempotent :
  forall (e : engine) (db : database) (p : BatchProcess) (b : string)
         (s : BatchSession.t),
    (BatchProcess.batch_id p = Some b ->
     has_process db b = true ->
     fst (save ser e db p) = db /\
     find_process (fst (save ser e db p)) b = find_process db b /\
     (write_error e = false -> snd (save ser e db p) = get ser e db (Some b))) /\
    (has_session db (BatchSession.batch_id s) (BatchSession.session_id s) = true ->
     fst (create_session e db s) = db /\
     find_session (fst (create_session e db s))
                  (BatchSession.batch_id s) (BatchSession.session_id s)
     = find_session db (BatchSession.batch_id s) (BatchSession.session_id s)).
Proof.
  intros e db p b s. split.
  - intros Hid Hrow. rewrite (save_existing e db p b Hid Hrow). simpl.
    repeat split; try reflexivity.
    intros W. now rewrite W.
  - intros Hrow. rewrite (create_session_existing e db s Hrow). simpl.
    split; reflexivity.
Qed.

Lemma get_inserted (e : engine) (db : database) (r : batch_process_row) :
  read_error e = false ->
  has_process db (p_batch_id r) = false ->
  get ser e {| batch_process := batch_process db ++ [r];
               batch_session := batch_session db |} (Some (p_batch_id r))
  = _deserialize_batch_process ser (as_dict r).
Proof.
  intros R Hnew. rewrite (get_first e _ _ R). unfold find_process. simpl.
  rewrite find_app_none by (apply find_none; exact Hnew).
  simpl. now rewrite String.eqb_refl.
Qed.

(** C2, as the code has it. Round trip. When [p] has a batch_id, the
    batch_id is not stored and the serializers give back what they wrote
    for the batches and the graph of [p], [save] returns, and a later
    [get] of the batch_id returns, [p] with its batch_id, batches and
    graph and with canceled false, whatever canceled was in [p]. *)
Theorem save_then_get_round_trip :
  forall (e e' : engine) (db : database) (p : BatchProcess) (b : string),
    BatchProcess.batch_id p = Some b ->
    has_process db b = false ->
    decodes_back ser p ->
    write_error e = false ->
    read_error e = false ->
    read_error e' = false ->
    let stored :=
      {| BatchProcess.batch_id := Some b;
         BatchProcess.batches := BatchProcess.batches p;
         BatchProcess.canceled := false;
         BatchProcess.graph := BatchProcess.graph p |} in
    snd (save ser e db p) = Ok stored /\
    get ser e' (fst (save ser e db p)) (Some b) = Ok stored.
Proof.
  intros e e' db p b Hid Hnew (Hlist & Hbatches & Hgraph) W R R' stored.
  unfold save, transaction, insert_or_ignore_batch_process.
  rewrite W, Hid. unfold has_process in Hnew. rewrite Hnew. simpl fst; simpl snd.
  set (r := {| p_batch_id := b;
               p_batches := json_dumps ser (map (batch_json ser) (BatchProcess.batches p));
               p_graph := graph_json ser (BatchProcess.graph p);
               p_canceled := 0;
               p_created_at := strftime_now e;
               p_updated_at := strftime_now e;
               p_deleted_at := None |}).
  assert (D : _deserialize_batch_process ser (as_dict r) = Ok stored).
  { rewrite deserialize_batch_process_row. simpl p_batches; simpl p_graph.
    rewrite Hlist. simpl. rewrite Hbatches. simpl. rewrite Hgraph. reflexivity. }
  split.
  - rewrite <- D. apply (get_inserted e db r R). exact Hnew.
  - rewrite <- D. apply (get_inserted e' db r R'). exact Hnew.
Qed.

(** A batch process whose batch_id is None is not stored: the insert is
    skipped on NOT NULL, and the read that follows finds no row. *)
Lemma save_without_batch_id (e : engine) (db : database) (p : BatchProcess) :
  BatchProcess.batch_id p = None ->
  save ser e db p =
  (db, if write_error e then Raise BatchProcessSaveException
       else Raise BatchProcessNotFoundException).
Proof.
  intros Hid. unfold save, transaction, insert_or_ignore_batch_process.
  destruct (write_error e); [reflexivity|].
  rewrite Hid. f_equal. unfold get, query, select_where.
  destruct (read_error e); [reflexivity|]. prepared.
  rewrite filter_none; [reflexivity|].
  induction (batch_process db) as [|r rows IH]; [reflexivity|].
  simpl existsb. exact IH.
Qed.

(** ** Deletion *)

(** C3, as the code has it. With the engine working and the foreign key
    holding, [delete] succeeds, no row of the batch_id remains in either
    table, and [get_session] raises BatchSessionNotFoundException for every
    session_id that only sessions of this batch used (a session_id that a
    session of another batch shares still finds that session). When no
    batch has the batch_id, the database is unchanged. *)
Theorem delete_cascades :
  forall (e : engine) (db : database) (b : string),
    write_error e = false ->
    foreign_keys_ok db = true ->
    snd (delete e db b) = Ok tt /\
    has_process (fst (delete e db b)) b = false /\
    (forall s, In s (batch_session (fst (delete e db b))) -> s_batch_id s <> b) /\
    (forall (e' : engine) (sid : string),
        session_id_only_in db b sid = true ->
        get_session e' (fst (delete e db b)) sid
        = Raise BatchSessionNotFoundException) /\
    (has_process db b = false -> fst (delete e db b) = db).
Proof.
  intros e db b W FK. rewrite (delete_ok e db b W). simpl fst; simpl snd.
  assert (Gone : forall s,
             In s (filter (fun s => negb ((s_batch_id s =? b)%string
                                          && has_process db b))
                          (batch_session db)) ->
             s_batch_id s <> b).
  { intros s Hs Eb. apply filter_In in Hs. destruct Hs as [Hin Hkeep].
    unfold foreign_keys_ok in FK. rewrite forallb_forall in FK.
    specialize (FK s Hin). rewrite Eb in FK, Hkeep.
    rewrite String.eqb_refl, FK in Hkeep. discriminate. }
  split; [reflexivity|]. split; [|split; [|split]].
  - unfold has_process. simpl. apply existsb_filter_negb.
  - exact Gone.
  - intros e' sid Only. unfold get_session, query.
    destruct (read_error e'); [reflexivity|].
    rewrite select_session, fetchone_filter. simpl batch_session.
    rewrite find_none_all; [reflexivity|].
    intros s Hs. destruct (String.eqb_spec (s_session_id s) sid) as [Es|]; [|reflexivity].
    exfalso. apply (Gone s Hs).
    apply filter_In in Hs. destruct Hs as [Hin _].
    unfold session_id_only_in in Only. rewrite forallb_forall in Only.
    specialize (Only s Hin). rewrite Es, String.eqb_refl in Only. simpl in Only.
    now apply String.eqb_eq.
  - intros Hno. destruct db as [ps ss]. simpl. unfold has_process in Hno. simpl in Hno.
    f_equal.
    + apply filter_all. rewrite forallb_forall. intros r Hr.
      destruct (p_batch_id r =? b)%string eqn:E; [|reflexivity].
      assert (existsb (fun r => (p_batch_id r =? b)%string) ps = true)
        by (apply existsb_exists; now exists r).
      congruence.
    + apply filter_all. rewrite forallb_forall. intros s _.
      unfold has_process. simpl. rewrite Hno. now rewrite andb_false_r.
Qed.

(** ** Created sessions *)

(** The WHERE clause of [get_created_sessions] names a column [created]
    that [batch_session] does not have; that of [get_created_session]
    compares with the text. *)
Lemma where_created_sessions_does_not_prepare :
  resolves (columns (row := batch_session_row)) where_created_sessions = false
  /\ resolves (columns (row := batch_session_row)) where_created_session = true.
Proof. split; reflexivity. Qed.

(** [get_created_sessions] raises BatchSessionNotFoundException whatever
    the database holds. *)
Lemma get_created_sessions_raises (e : engine) (db : database) (b : string) :
  get_created_sessions e db b = Raise BatchSessionNotFoundException.
Proof.
  unfold get_created_sessions, query, select_where.
  change (resolves columns where_created_sessions) with false.
  now destruct (read_error e).
Qed.

(** C4, where the code departs from it. [get_created_sessions] raises
    BatchSessionNotFoundException on every database and batch_id, so also
    in the scenario of the specification, where B1 has the sessions S1 and
    S2, both created, and where [get_created_session] finds S1. *)
Theorem get_created_sessions_of_two_created :
  (forall (e : engine) (db : database) (b : string),
      get_created_sessions e db b = Raise BatchSessionNotFoundException) /\
  map (fun r => (s_batch_id r, s_session_id r, s_state r))
      (batch_session Example.one_batch)
  = [("B1", "S1", "created"); ("B1", "S2", "created")] /\
  get_created_sessions Example.working Example.one_batch "B1"
  = Raise BatchSessionNotFoundException /\
  get_created_session Example.working Example.one_batch "B1"
  = Ok (Example.session "B1" "S1" created).
Proof.
  split; [exact get_created_sessions_raises|].
  split; [reflexivity|].
  split; [apply get_created_sessions_raises|].
  vm_compute. reflexivity.
Qed.

(** ** Cancellation *)

Lemma cancel_sets_canceled (e : engine) (db : database) (b : string)
  (r : batch_process_row) :
  write_error e = false ->
  find_process db b = Some r ->
  exists r',
    find_process (fst (cancel e db b)) b = Some r' /\
    p_canceled r' = 1%Z /\ same_process_data r r'.
Proof.
  intros W Hr. rewrite (cancel_ok e db b W). unfold find_process in *. simpl.
  eexists. split.
  - apply find_map_keyed with (h := fun x => (p_batch_id x =? b)%string);
      [reflexivity|exact Hr].
  - apply find_some in Hr. destruct Hr as [_ ->]. simpl.
    repeat split.
Qed.

Lemma cancel_missing (e : engine) (db : database) (b : string) :
  write_error e = false ->
  has_process db b = false ->
  cancel e db b = (db, Ok tt).
Proof.
  intros W Hno. rewrite (cancel_ok e db b W). destruct db as [ps ss].
  unfold has_process in Hno. simpl in *.
  now rewrite map_unchanged.
Qed.

(** C5, where the engine fails: [cancel] rolls back and raises
    BatchSessionSaveException, the exception of the session methods, and
    not BatchProcessSaveException, which [save] raises. *)
Theorem cancel_failure_raises_session_exception :
  forall (now ts : string) (r : bool) (db : database) (b : string),
    cancel {| strftime_now := now; current_timestamp := ts;
              write_error := true; read_error := r |} db b
    = (db, Raise BatchSessionSaveException) /\
    snd (cancel {| strftime_now := now; current_timestamp := ts;
                   write_error := true; read_error := r |} db b)
    <> Raise BatchProcessSaveException.
Proof.
  intros now ts r db b. split; [reflexivity|].
  simpl. discriminate.
Qed.

(** ** What one call does to a row *)

Lemma same_process_data_refl (r : batch_process_row) : same_process_data r r.
Proof. repeat split. Qed.

Lemma same_session_data_refl (s : batch_session_row) : same_session_data s s.
Proof. repeat split. Qed.

(** A stored batch after one call: the call deleted it, or its row is the
    same, or the call canceled it and only canceled and updated_at
    changed. *)
Lemma step_process_row (e : engine) (c : call) (db : database)
  (b : string) (r : batch_process_row) :
  find_process db b = Some r ->
  (find_process (step ser e c db) b = None /\ deletes b c = true) \/
  (exists r', find_process (step ser e c db) b = Some r' /\
              same_process_data r r' /\
              (r' = r \/ (c = Cancel b /\ p_canceled r' = 1%Z))).
Proof.
  intros Hr.
  assert (Same : find_process db b = Some r ->
                 exists r', find_process db b = Some r' /\
                            same_process_data r r' /\
                            (r' = r \/ (c = Cancel b /\ p_canceled r' = 1%Z))).
  { intros H. exists r. split; [exact H|]. split; [apply same_process_data_refl|now left]. }
  pose proof (find_some _ _ Hr) as [_ Kr]. apply String.eqb_eq in Kr.
  destruct c as [b'|p|b'|b'|s|sid|b'|b'|b' s' ch]; simpl step;
    try (right; exact (Same Hr)).
  - (* delete *)
    destruct (write_error e) eqn:W.
    + right. unfold delete, transaction. rewrite W. exact (Same Hr).
    + rewrite (delete_ok e db b' W). simpl fst. unfold find_process. simpl.
      destruct (String.eqb_spec b' b) as [->|N].
      * left. split; [|reflexivity].
        apply find_filter_none. intros x Fx. now rewrite Fx.
      * right. rewrite find_filter_same.
        -- exact (Same Hr).
        -- intros x Fx. apply String.eqb_eq in Fx. rewrite Fx.
           apply negb_true_iff. apply String.eqb_neq. congruence.
  - (* save *)
    right. unfold save, transaction, insert_or_ignore_batch_process.
    destruct (write_error e); [exact (Same Hr)|].
    destruct (BatchProcess.batch_id p) as [b'|]; [|exact (Same Hr)].
    destruct (existsb _ (batch_process db)); [exact (Same Hr)|].
    simpl fst. exists r. split.
    + unfold find_process in *. simpl. now apply find_app_some.
    + split; [apply same_process_data_refl|now left].
  - (* cancel *)
    right. destruct (write_error e) eqn:W.
    + unfold cancel, transaction. rewrite W. exact (Same Hr).
    + rewrite (cancel_ok e db b' W). simpl fst. unfold find_process in *. simpl.
      eexists. split.
      * apply find_map_keyed with (h := fun x => (p_batch_id x =? b')%string);
          [reflexivity|exact Hr].
      * destruct (String.eqb_spec (p_batch_id r) b') as [Eb|N]; simpl.
        -- split; [repeat split|]. right. split; [congruence|reflexivity].
        -- split; [apply same_process_data_refl|now left].
  - (* create_session *)
    right. unfold create_session, transaction, insert_or_ignore_batch_session.
    destruct (write_error e); [exact (Same Hr)|].
    destruct (existsb _ (batch_session db)); [exact (Same Hr)|].
    destruct (existsb _ (batch_process db)); exact (Same Hr).
  - (* update_session_state *)
    right. destruct (write_error e) eqn:W.
    + unfold update_session_state, transaction. rewrite W. exact (Same Hr).
    + destruct (update_ok e db b' s' ch W) as [-> _]. exact (Same Hr).
Qed.

(** A stored session after one call: the call deleted its batch, or its
    row is the same, or the call updated its state and only state and
    updated_at changed. *)
Lemma step_session_row (e : engine) (c : call) (db : database)
  (b s : string) (r : batch_session_row) :
  find_session db b s = Some r ->
  (find_session (step ser e c db) b s = None /\ deletes b c = true) \/
  (exists r', find_session (step ser e c db) b s = Some r' /\
              same_session_data r r' /\
              (r' = r \/
               exists ch, c = UpdateSessionState b s ch /\
                          s_state r' = state_text (BatchSessionChanges.state ch))).
Proof.
  intros Hr.
  assert (Same : forall db', batch_session db' = batch_session db ->
                 exists r', find_session db' b s = Some r' /\
                            same_session_data r r' /\
                            (r' = r \/
                             exists ch, c = UpdateSessionState b s ch /\
                               s_state r' = state_text (BatchSessionChanges.state ch))).
  { intros db' E. exists r. unfold find_session in *. rewrite E.
    split; [exact Hr|]. split; [apply same_session_data_refl|now left]. }
  pose proof (find_some _ _ Hr) as [_ Kr]. apply andb_true_iff in Kr.
  destruct Kr as [Kb Ks]. apply String.eqb_eq in Kb, Ks.
  destruct c as [b'|p|b'|b'|ss|sid|b'|b'|b' s' ch]; simpl step;
    try (right; apply Same; reflexivity).
  - (* delete *)
    destruct (write_error e) eqn:W.
    + right. unfold delete, transaction. rewrite W. now apply Same.
    + rewrite (delete_ok e db b' W). simpl fst. unfold find_session in *. simpl.
      destruct (String.eqb_spec b' b) as [->|N].
      * destruct (has_process db b) eqn:P.
        -- left. split; [|reflexivity].
           apply find_filter_none. intros x Fx.
           apply andb_true_iff in Fx. destruct Fx as [-> _]. reflexivity.
        -- right. rewrite filter_all.
           ++ fold (find_session db b s). now apply Same.
           ++ apply forallb_forall. intros x _. now rewrite andb_false_r.
      * right. rewrite find_filter_same.
        -- fold (find_session db b s). now apply Same.
        -- intros x Fx. apply andb_true_iff in Fx. destruct Fx as [Fx _].
           apply String.eqb_eq in Fx. rewrite Fx.
           apply negb_true_iff. apply andb_false_iff. left.
           apply String.eqb_neq. congruence.
  - (* save *)
    right. unfold save, transaction, insert_or_ignore_batch_process.
    destruct (write_error e); [now apply Same|].
    destruct (BatchProcess.batch_id p) as [b'|]; [|now apply Same].
    destruct (existsb _ (batch_process db)); now apply Same.
  - (* cancel *)
    right. destruct (write_error e) eqn:W.
    + unfold cancel, transaction. rewrite W. now apply Same.
    + rewrite (cancel_ok e db b' W). now apply Same.
  - (* create_session *)
    right. unfold create_session, transaction, insert_or_ignore_batch_session.
    destruct (write_error e); [now apply Same|].
    destruct (existsb _ (batch_session db)); [now apply Same|].
    destruct (existsb _ (batch_process db)); [|now apply Same].
    simpl fst. exists r. split.
    + unfold find_session in *. simpl. now apply find_app_some.
    + split; [apply same_session_data_refl|now left].
  - (* update_session_state *)
    right. destruct (write_error e) eqn:W.
    + unfold update_session_state, transaction. rewrite W. now apply Same.
    + destruct (update_ok e db b' s' ch W) as [-> _].
      unfold find_session in *. simpl.
      eexists. split.
      * apply find_map_keyed
          with (h := fun x => (s_batch_id x =? b')%string
                              && (s_session_id x =? s')%string);
          [reflexivity|exact Hr].
      * destruct (String.eqb_spec (s_batch_id r) b') as [Eb|N]; simpl.
        -- destruct (String.eqb_spec (s_session_id r) s') as [Es|N']; simpl.
           ++ split; [repeat split|]. right. exists ch.
              split; [congruence|reflexivity].
           ++ split; [apply same_session_data_refl|now left].
        -- split; [apply same_session_data_refl|now left].
Qed.

(** ** Cancellation over sequences of calls *)

Lemma same_process_data_trans (r1 r2 r3 : batch_process_row) :
  same_process_data r1 r2 -> same_process_data r2 r3 -> same_process_data r1 r3.
Proof.
  unfold same_process_data. intros (A1 & A2 & A3 & A4 & A5) (B1 & B2 & B3 & B4 & B5).
  repeat split; congruence.
Qed.

Lemma run_keeps_canceled (calls : list (engine * call)) :
  forall (db : database) (b : string) (r : batch_process_row),
    forallb (fun ec => negb (deletes b (snd ec))) calls = true ->
    find_process db b = Some r ->
    p_canceled r = 1%Z ->
    exists r', find_process (run ser calls db) b = Some r' /\
               same_process_data r r' /\ p_canceled r' = 1%Z.
Proof.
  induction calls as [|[e c] calls IH]; intros db b r Hno Hr Hc; simpl.
  - exists r. split; [exact Hr|]. split; [apply same_process_data_refl|exact Hc].
  - simpl in Hno. apply andb_true_iff in Hno. destruct Hno as [Hc0 Hno].
    apply negb_true_iff in Hc0.
    destruct (step_process_row e c db b r Hr) as [[_ D]|(r1 & H1 & S1 & C1)].
    + congruence.
    + assert (Hc1 : p_canceled r1 = 1%Z)
        by (destruct C1 as [->|[_ C1]]; assumption).
      destruct (IH _ b r1 Hno H1 Hc1) as (r' & H' & S' & C').
      exists r'. split; [exact H'|]. split; [|exact C'].
      now apply same_process_data_trans with r1.
Qed.

Lemma get_of_same_row (e : engine) (db db' : database) (b : string)
  (r r' : batch_process_row) :
  find_process db b = Some r ->
  find_process db' b = Some r' ->
  same_process_data r r' ->
  p_canceled r' = p_canceled r ->
  get ser e db' (Some b) = get ser e db (Some b).
Proof.
  intros Hr Hr' (S1 & S2 & S3 & _) Hc.
  destruct (read_error e) eqn:R.
  - unfold get, query. now rewrite R.
  - rewrite !(get_first e _ _ R), Hr, Hr'.
    rewrite !deserialize_batch_process_row. now rewrite S1, S2, S3, Hc.
Qed.

Lemma get_reports_canceled (e : engine) (db : database) (b : string)
  (r : batch_process_row) (p : BatchProcess) :
  find_process db b = Some r ->
  p_canceled r = 1%Z ->
  get ser e db (Some b) = Ok p ->
  BatchProcess.canceled p = true.
Proof.
  intros Hr Hc. destruct (read_error e) eqn:R.
  - unfold get, query. rewrite R. discriminate.
  - rewrite (get_first e _ _ R), Hr, deserialize_batch_process_row, Hc.
    destruct (json_loads ser (p_batches r)) as [l|]; simpl; [|discriminate].
    destruct (traverse (parse_raw_as_Batch ser) l); simpl; [|discriminate].
    destruct (parse_raw_as_Graph ser (p_graph r)); simpl; [|discriminate].
    intros E. injection E as <-. reflexivity.
Qed.

(** C6, as the code has it. After [cancel] of a stored batch with the
    engine working, and after any further calls none of which deletes that
    batch (saves of the same batch_id and repeated cancels included), the
    row is there with canceled = 1, [get] returns what it returned right
    after the cancel, and whatever [get] returns has canceled true. *)
Theorem cancellation_is_monotonic :
  forall (calls : list (engine * call)) (e e' : engine) (db : database)
         (b : string),
    write_error e = false ->
    has_process db b = true ->
    forallb (fun ec => negb (deletes b (snd ec))) calls = true ->
    (exists r, find_process (run ser calls (fst (cancel e db b))) b = Some r /\
               p_canceled r = 1%Z) /\
    get ser e' (run ser calls (fst (cancel e db b))) (Some b)
    = get ser e' (fst (cancel e db b)) (Some b) /\
    (forall p, get ser e' (run ser calls (fst (cancel e db b))) (Some b) = Ok p ->
               BatchProcess.canceled p = true).
Proof.
  intros calls e e' db b W Hrow Hno.
  destruct (existsb_find _ _ Hrow) as (r0 & H0 & _).
  destruct (cancel_sets_canceled e db b r0 W H0) as (r & Hr & Hc & _).
  destruct (run_keeps_canceled calls _ b r Hno Hr Hc) as (r' & Hr' & S' & Hc').
  split; [now exists r'|]. split.
  - apply (get_of_same_row e' _ _ b r r' Hr Hr' S'). congruence.
  - intros p. now apply (get_reports_canceled e' _ b r').
Qed.

(** ** Session state *)

(** Only batch_id, session_id and state of a row are decoded. *)
Lemma deserialize_batch_session_row (r : batch_session_row) :
  _deserialize_batch_session (as_dict r) =
  let* state := decoded (state_of_text (s_state r)) in
  Ok {| BatchSession.batch_id := s_batch_id r;
        BatchSession.session_id := s_session_id r;
        BatchSession.state := state |}.
Proof. reflexivity. Qed.

(** C7, as the code has it. For a stored session (batch_id, session_id)
    whose session_id no session of another batch uses, with the engine
    working, [update_session_state] returns the session with the new state
    (completed, or any other), and a later [get_session] of the session_id
    returns the same. *)
Theorem update_session_state_is_visible :
  forall (e e' : engine) (db : database) (b s : string)
         (changes : BatchSessionChanges.t),
    write_error e = false ->
    read_error e = false ->
    read_error e' = false ->
    has_session db b s = true ->
    session_id_only_in db b s = true ->
    let updated :=
      {| BatchSession.batch_id := b;
         BatchSession.session_id := s;
         BatchSession.state := BatchSessionChanges.state changes |} in
    snd (update_session_state e db b s changes) = Ok updated /\
    get_session e' (fst (update_session_state e db b s changes)) s = Ok updated.
Proof.
  intros e e' db b s changes W R R' Hrow Only updated.
  destruct (update_ok e db b s changes W) as [Edb Eres].
  rewrite Eres, Edb. clear Eres Edb.
  assert (Hs : existsb (fun r => (s_session_id r =? s)%string) (batch_session db) = true).
  { unfold has_session in Hrow. apply existsb_exists in Hrow.
    destruct Hrow as (x & Hx & Kx). apply andb_true_iff in Kx.
    apply existsb_exists. exists x. tauto. }
  destruct (existsb_find _ _ Hs) as (a & Ha & Ka).
  assert (Kb : (s_batch_id a =? b)%string = true).
  { unfold session_id_only_in in Only. rewrite forallb_forall in Only.
    apply find_some in Ha. destruct Ha as [Hin _].
    specialize (Only a Hin). rewrite Ka in Only. exact Only. }
  assert (G : forall e0, read_error e0 = false ->
                get_session e0
                  {| batch_process := batch_process db;
                     batch_session :=
                       map (fun r =>
                              if (s_batch_id r =? b)%string && (s_session_id r =? s)%string
                              then {| s_batch_id := s_batch_id r;
                                      s_session_id := s_session_id r;
                                      s_state := state_text (BatchSessionChanges.state changes);
                                      s_created_at := s_created_at r;
                                      s_updated_at := strftime_now e;
                                      s_deleted_at := s_deleted_at r |}
                              else r)
                           (batch_session db) |} s = Ok updated).
  { intros e0 R0. rewrite (get_session_first e0 _ _ R0). simpl batch_session.
    rewrite (find_map_keyed _
               (fun r => (s_batch_id r =? b)%string && (s_session_id r =? s)%string)
               _ _ a); [|reflexivity|exact Ha].
    rewrite Kb, Ka. simpl andb. cbv iota.
    rewrite deserialize_batch_session_row. simpl s_state.
    rewrite state_of_text_of_state. simpl.
    apply String.eqb_eq in Kb, Ka. subst updated. now rewrite Kb, Ka. }
  split; apply G; assumption.
Qed.

Lemma get_session_not_save_error (e : engine) (db : database) (s : string) :
  get_session e db s <> Raise BatchSessionSaveException.
Proof.
  unfold get_session.
  destruct (query e _) as [rows|]; [|discriminate].
  destruct (fetchone rows) as [r|]; [|discriminate].
  rewrite deserialize_batch_session_row.
  destruct (state_of_text (s_state r)); discriminate.
Qed.

(** C10, as the code has it. When no session has the pair
    (batch_id, session_id) and the engine's write works,
    [update_session_state] leaves the database unchanged and returns what
    [get_session] of the session_id gives, never
    BatchSessionSaveException: BatchSessionNotFoundException when no
    session of any batch has the session_id. *)
Theorem update_of_missing_session :
  forall (e : engine) (db : database) (b s : string)
         (changes : BatchSessionChanges.t),
    write_error e = false ->
    has_session db b s = false ->
    fst (update_session_state e db b s changes) = db /\
    snd (update_session_state e db b s changes) = get_session e db s /\
    snd (update_session_state e db b s changes)
      <> Raise BatchSessionSaveException /\
    (session_id_unused db s = true ->
     snd (update_session_state e db b s changes)
     = Raise BatchSessionNotFoundException).
Proof.
  intros e db b s changes W Hno.
  destruct (update_ok e db b s changes W) as [Edb Eres].
  assert (Same : fst (update_session_state e db b s changes) = db).
  { rewrite Edb. destruct db as [ps ss]. unfold has_session in Hno. simpl in *.
    now rewrite map_unchanged. }
  rewrite Eres, Same. repeat split.
  - apply get_session_not_save_error.
  - intros Unused. unfold get_session, query.
    destruct (read_error e); [reflexivity|].
    rewrite select_session, fetchone_filter.
    rewrite find_none; [reflexivity|].
    unfold session_id_unused in Unused.
    destruct (existsb _ (batch_session db)) eqn:E; [|reflexivity].
    apply existsb_exists in E. destruct E as (x & Hx & Kx).
    rewrite forallb_forall in Unused. specialize (Unused x Hx).
    rewrite Kx in Unused. discriminate.
Qed.

(** ** Deserialization of a dictionary that lacks a field *)

Lemma dict_get_missing (d : dict) (k : string) (default : pyvalue) :
  dict_has d k = false -> dict_get d k default = default.
Proof.
  induction d as [|[k' v] d IH]; simpl; [reflexivity|].
  destruct (k' =? k)%string; simpl; [discriminate|exact IH].
Qed.

(** The fields for which the sentinel is accepted: a dictionary without
    batch_id gives a session whose batch_id is the text unknown. *)
Lemma deserialize_session_without_batch_id (d : dict) (s : string)
  (c : SessionState) :
  dict_has d "batch_id" = false ->
  dict_get d "session_id" (PyStr "unknown") = PyStr s ->
  dict_get d "state" (PyStr "unknown") = PyStr (state_text c) ->
  _deserialize_batch_session d
  = Ok {| BatchSession.batch_id := "unknown";
          BatchSession.session_id := s;
          BatchSession.state := c |}.
Proof.
  intros Hb Hs Hc. unfold _deserialize_batch_session.
  rewrite (dict_get_missing d _ _ Hb), Hs, Hc. simpl.
  now rewrite state_of_text_of_state.
Qed.

(** The deserializers called on a dictionary that is not a row: the
    sentinel is substituted for a missing field, and for state, batches
    and graph the sentinel is then refused. A session dictionary without
    state raises, and a batch process dictionary without batches or
    without graph raises as soon as the text unknown is not valid JSON
    for the parser. *)
Theorem missing_field_sentinel_is_refused :
  forall (d : dict),
    (dict_has d "state" = false ->
     _deserialize_batch_session d = Raise DecodeError) /\
    (dict_has d "batches" = false ->
     json_loads ser "unknown" = None ->
     _deserialize_batch_process ser d = Raise DecodeError) /\
    (dict_has d "graph" = false ->
     parse_raw_as_Graph ser "unknown" = None ->
     _deserialize_batch_process ser d = Raise DecodeError).
Proof.
  intros d. repeat split.
  - intros H. unfold _deserialize_batch_session.
    rewrite (dict_get_missing d "state" _ H).
    destruct (str_validator (dict_get d "batch_id" _)); [|reflexivity].
    destruct (str_validator (dict_get d "session_id" _)); reflexivity.
  - intros H J. unfold _deserialize_batch_process.
    rewrite (dict_get_missing d "batches" _ H). simpl. now rewrite J.
  - intros H J. unfold _deserialize_batch_process.
    rewrite (dict_get_missing d "graph" _ H).
    destruct (raw_text (dict_get d "batches" _)) as [t|]; [|reflexivity]. simpl.
    destruct (json_loads ser t) as [l|]; [|reflexivity]. simpl.
    destruct (traverse (parse_raw_as_Batch ser) l); [|reflexivity]. simpl.
    now rewrite J.
Qed.

(** ** Frame *)

(** C9. Whatever the call and the engine, a batch row that is there
    before and after keeps batch_id, batches, graph, created_at (and
    deleted_at); it is the same row unless the call is [cancel] of its
    batch_id, which sets canceled. A session row that is there before and
    after keeps batch_id, session_id, created_at (and deleted_at); it is
    the same row unless the call is [update_session_state] of its pair,
    which sets state. Only updated_at changes besides. *)
Theorem only_canceled_and_state_change :
  forall (e : engine) (c : call) (db : database),
    (forall (b : string) (r r' : batch_process_row),
        find_process db b = Some r ->
        find_process (step ser e c db) b = Some r' ->
        same_process_data r r' /\
        (r' = r \/ (c = Cancel b /\ p_canceled r' = 1%Z))) /\
    (forall (b s : string) (r r' : batch_session_row),
        find_session db b s = Some r ->
        find_session (step ser e c db) b s = Some r' ->
        same_session_data r r' /\
        (r' = r \/
         exists ch, c = UpdateSessionState b s ch /\
                    s_state r' = state_text (BatchSessionChanges.state ch))).
Proof.
  intros e c db. split.
  - intros b r r' Hr Hr'.
    destruct (step_process_row e c db b r Hr) as [[N _]|(r1 & H1 & S1 & C1)].
    + congruence.
    + rewrite H1 in Hr'. injection Hr' as <-. now split.
  - intros b s r r' Hr Hr'.
    destruct (step_session_row e c db b s r Hr) as [[N _]|(r1 & H1 & S1 & C1)].
    + congruence.
    + rewrite H1 in Hr'. injection Hr' as <-. now split.
Qed.

(** ** The foreign key is an invariant *)

Lemma existsb_map_keyed {A : Type} (f h : A -> bool) (g : A -> A) (l : list A) :
  (forall x, f (g x) = f x) ->
  existsb f (map (fun x => if h x then g x else x) l) = existsb f l.
Proof.
  intros Hk. induction l as [|x l IH]; simpl; [reflexivity|].
  rewrite IH. destruct (h x); [rewrite Hk|]; reflexivity.
Qed.

Lemma step_foreign_keys (e : engine) (c : call) (db : database) :
  foreign_keys_ok db = true -> foreign_keys_ok (step ser e c db) = true.
Proof.
  intros FK.
  destruct c as [b'|p|b'|b'|s|sid|b'|b'|b' s' ch]; simpl step; try exact FK.
  - (* delete *)
    destruct (write_error e) eqn:W.
    + unfold delete, transaction. now rewrite W.
    + rewrite (delete_ok e db b' W). simpl fst.
      unfold foreign_keys_ok in *. rewrite forallb_forall in *. simpl.
      intros x Hx. apply filter_In in Hx. destruct Hx as [Hin Keep].
      specialize (FK x Hin). unfold has_process in *. simpl.
      apply existsb_exists in FK. destruct FK as (q & Hq & Kq).
      apply existsb_exists. exists q. split; [|exact Kq].
      apply filter_In. split; [exact Hq|].
      apply String.eqb_eq in Kq. rewrite Kq.
      destruct (s_batch_id x =? b')%string eqn:E; [|reflexivity].
      simpl in Keep. apply negb_true_iff in Keep.
      apply String.eqb_eq in E. rewrite <- E in Keep.
      assert (existsb (fun r => (p_batch_id r =? s_batch_id x)%string)
                      (batch_process db) = true)
        by (apply existsb_exists; exists q; split;
            [exact Hq|now apply String.eqb_eq]).
      congruence.
  - (* save *)
    unfold save, transaction, insert_or_ignore_batch_process.
    destruct (write_error e); [exact FK|].
    destruct (BatchProcess.batch_id p) as [b'|]; [|exact FK].
    destruct (existsb _ (batch_process db)); [exact FK|].
    simpl fst. unfold foreign_keys_ok, has_process in *. simpl.
    rewrite forallb_forall in *. intros x Hx.
    rewrite existsb_app. now rewrite (FK x Hx).
  - (* cancel *)
    destruct (write_error e) eqn:W.
    + unfold cancel, transaction. now rewrite W.
    + rewrite (cancel_ok e db b' W). simpl fst.
      unfold foreign_keys_ok, has_process in *. simpl.
      rewrite forallb_forall in *. intros x Hx.
      rewrite <- (FK x Hx).
      apply existsb_map_keyed with (h := fun r => (p_batch_id r =? b')%string).
      reflexivity.
  - (* create_session *)
    unfold create_session, transaction, insert_or_ignore_batch_session.
    destruct (write_error e); [exact FK|].
    destruct (existsb _ (batch_session db)); [exact FK|].
    destruct (existsb _ (batch_process db)) eqn:P; [|exact FK].
    simpl fst. unfold foreign_keys_ok, has_process in *. simpl.
    rewrite forallb_app, FK. simpl. now rewrite P.
  - (* update_session_state *)
    destruct (write_error e) eqn:W.
    + unfold update_session_state, transaction. now rewrite W.
    + destruct (update_ok e db b' s' ch W) as [-> _].
      unfold foreign_keys_ok, has_process in *. simpl.
      rewrite forallb_forall in *. intros x Hx.
      apply in_map_iff in Hx. destruct Hx as (y & <- & Hy).
      specialize (FK y Hy).
      destruct ((s_batch_id y =? b')%string && (s_session_id y =? s')%string);
        exact FK.
Qed.

Lemma run_foreign_keys (calls : list (engine * call)) :
  forall db, foreign_keys_ok db = true -> foreign_keys_ok (run ser calls db) = true.
Proof.
  induction calls as [|[e c] calls IH]; intros db FK; simpl; [exact FK|].
  apply IH. now apply step_foreign_keys.
Qed.

(** ** The primary keys are invariants *)

Lemma step_primary_keys (e : engine) (c : call) (db : database) :
  primary_keys_ok db -> primary_keys_ok (step ser e c db).
Proof.
  intros [PKp PKs].
  destruct c as [b'|p|b'|b'|s|sid|b'|b'|b' s' ch]; simpl step;
    try (split; assumption).
  - (* delete *)
    destruct (write_error e) eqn:W.
    + unfold delete, transaction. rewrite W. now split.
    + rewrite (delete_ok e db b' W). split; simpl; now apply NoDup_map_filter.
  - (* save *)
    unfold save, transaction, insert_or_ignore_batch_process.
    destruct (write_error e); [now split|].
    destruct (BatchProcess.batch_id p) as [b'|]; [|now split].
    destruct (existsb _ (batch_process db)) eqn:E; [now split|].
    split; simpl; [|exact PKs].
    apply NoDup_map_snoc; [exact PKp|]. simpl.
    intros x Hx Kx. apply String.eqb_eq in Kx.
    assert (existsb (fun r => (p_batch_id r =? b')%string) (batch_process db) = true)
      by (apply existsb_exists; now exists x).
    congruence.
  - (* cancel *)
    destruct (write_error e) eqn:W.
    + unfold cancel, transaction. rewrite W. now split.
    + rewrite (cancel_ok e db b' W). split; simpl; [|exact PKs].
      rewrite map_map_keyed; [exact PKp|reflexivity].
  - (* create_session *)
    unfold create_session, transaction, insert_or_ignore_batch_session.
    destruct (write_error e); [now split|].
    destruct (existsb _ (batch_session db)) eqn:E; [now split|].
    destruct (existsb _ (batch_process db)); [|now split].
    split; simpl; [exact PKp|].
    apply NoDup_map_snoc; [exact PKs|]. simpl.
    intros x Hx Kx. injection Kx as Kb Ks.
    assert (existsb (fun r => (s_batch_id r =? BatchSession.batch_id s)%string
                              && (s_session_id r =? BatchSession.session_id s)%string)
                    (batch_session db) = true).
    { apply existsb_exists. exists x. split; [exact Hx|].
      rewrite Kb, Ks, !String.eqb_refl. reflexivity. }
    congruence.
  - (* update_session_state *)
    destruct (write_error e) eqn:W.
    + unfold update_session_state, transaction. rewrite W. now split.
    + destruct (update_ok e db b' s' ch W) as [-> _].
      split; simpl; [exact PKp|].
      rewrite map_map_keyed; [exact PKs|reflexivity].
Qed.

(** Every database the store reaches from the empty one satisfies the
    constraints of the schema. *)
Lemma reachable_constraints (calls : list (engine * call)) :
  foreign_keys_ok (run ser calls empty) = true /\
  primary_keys_ok (run ser calls empty).
Proof.
  split.
  - now apply run_foreign_keys.
  - assert (G : forall db, primary_keys_ok db -> primary_keys_ok (run ser calls db)).
    { induction calls as [|[e c] calls IH]; intros db PK; simpl; [exact PK|].
      apply IH. now apply step_primary_keys. }
    apply G. split; constructor.
Qed.

End StoreProperties.

(** * The properties on the scenario *)

Section Scenario.

Import Example.

(** C1 on B1 with its two sessions: a second save of B1 with another
    payload, and a second creation of (B1, S1) as completed, change
    nothing. *)
Lemma creation_is_idempotent_witness :
  fst (save ser working one_batch B1_other) = one_batch /\
  get ser working one_batch (Some "B1") = Ok B1 /\
  fst (create_session working one_batch (session "B1" "S1" completed)) = one_batch.
Proof.
  destruct (creation_is_idempotent ser working one_batch B1_other "B1"
              (session "B1" "S1" completed)) as [Hsave Hcreate].
  split; [|split].
  - apply Hsave; reflexivity.
  - reflexivity.
  - apply Hcreate; reflexivity.
Defined.

(** C2 on the empty database: B1 saved with canceled true comes back with
    canceled false. *)
Lemma save_then_get_round_trip_witness :
  snd (save ser working empty B1_canceled) = Ok B1 /\
  get ser later (fst (save ser working empty B1_canceled)) (Some "B1") = Ok B1.
Proof.
  apply (save_then_get_round_trip ser working later empty B1_canceled "B1");
    try reflexivity.
  repeat split; reflexivity.
Defined.

(** C3 on B1 with its two sessions. *)
Lemma delete_cascades_witness :
  snd (delete working one_batch "B1") = Ok tt /\
  has_process (fst (delete working one_batch "B1")) "B1" = false /\
  get_session later (fst (delete working one_batch "B1")) "S1"
  = Raise BatchSessionNotFoundException /\
  get_session later (fst (delete working one_batch "B1")) "S2"
  = Raise BatchSessionNotFoundException.
Proof.
  destruct (delete_cascades working one_batch "B1" eq_refl eq_refl)
    as (Hok & Hgone & _ & Hget & _).
  split; [exact Hok|]. split; [exact Hgone|].
  split; apply Hget; reflexivity.
Defined.

(** C3 as stated fails when a session of another batch has the same
    session_id: B1 and B2 each have a session S1; after B1 is deleted,
    [get_session] of S1 returns the session of B2. *)
Lemma delete_leaves_shared_session_id :
  foreign_keys_ok shared_session_id = true /\
  has_session shared_session_id "B1" "S1" = true /\
  snd (delete working shared_session_id "B1") = Ok tt /\
  get_session working (fst (delete working shared_session_id "B1")) "S1"
  = Ok (session "B2" "S1" created) /\
  get_session working (fst (delete working shared_session_id "B1")) "S1"
  <> Raise BatchSessionNotFoundException.
Proof. repeat split; try reflexivity. vm_compute. discriminate. Qed.

(** C6 on B1: canceled, then saved again, canceled again and a session
    updated; [get] still returns B1 canceled. *)
Lemma cancellation_is_monotonic_witness :
  get ser later
      (run ser [(working, Save B1_other);
                (later, Cancel "B1");
                (working, UpdateSessionState "B1" "S1" (to completed));
                (failing, Save B1)]
           (fst (cancel working one_batch "B1")))
      (Some "B1")
  = Ok B1_canceled.
Proof.
  destruct (cancellation_is_monotonic ser
              [(working, Save B1_other);
               (later, Cancel "B1");
               (working, UpdateSessionState "B1" "S1" (to completed));
               (failing, Save B1)]
              working later one_batch "B1" eq_refl eq_refl eq_refl)
    as (_ & Hget & _).
  rewrite Hget. reflexivity.
Defined.

(** C6 as stated fails when the batch is deleted and saved again: the new
    row of the same batch_id has canceled false. *)
Lemma cancellation_reset_by_delete_and_save :
  get ser working (fst (cancel working one_batch "B1")) (Some "B1")
  = Ok B1_canceled /\
  get ser working
      (run ser [(working, Delete "B1")] (fst (cancel working one_batch "B1")))
      (Some "B1")
  = Raise BatchProcessNotFoundException /\
  get ser working
      (run ser [(working, Delete "B1"); (working, Save B1)]
           (fst (cancel working one_batch "B1")))
      (Some "B1")
  = Ok B1 /\
  BatchProcess.canceled B1 = false.
Proof. repeat split; reflexivity. Qed.

(** C7 on B1 with its two sessions: S1 completed. *)
Lemma update_session_state_is_visible_witness :
  snd (update_session_state working one_batch "B1" "S1" (to completed))
  = Ok (session "B1" "S1" completed) /\
  get_session later
    (fst (update_session_state working one_batch "B1" "S1" (to completed))) "S1"
  = Ok (session "B1" "S1" completed).
Proof.
  apply (update_session_state_is_visible working later one_batch "B1" "S1"
           (to completed)); reflexivity.
Defined.

(** C7 as stated fails when a session of an earlier batch has the same
    session_id: (B2, S1) is updated to completed, and both the call and a
    later [get_session] of S1 return (B1, S1), still created. *)
Lemma update_hidden_by_shared_session_id :
  has_session shared_session_id "B2" "S1" = true /\
  find_session
    (fst (update_session_state working shared_session_id "B2" "S1" (to completed)))
    "B2" "S1"
  = Some {| s_batch_id := "B2"; s_session_id := "S1"; s_state := "completed";
            s_created_at := "2023-08-01 10:00:00.000";
            s_updated_at := "2023-08-01 10:00:00.000";
            s_deleted_at := None |} /\
  snd (update_session_state working shared_session_id "B2" "S1" (to completed))
  = Ok (session "B1" "S1" created) /\
  get_session later
    (fst (update_session_state working shared_session_id "B2" "S1" (to completed)))
    "S1"
  = Ok (session "B1" "S1" created).
Proof. repeat split; reflexivity. Qed.

(** Dictionaries that lack state, batches and graph. *)
Lemma missing_field_sentinel_is_refused_witness :
  _deserialize_batch_session [("batch_id", PyStr "B1"); ("session_id", PyStr "S1")]
  = Raise DecodeError /\
  _deserialize_batch_process ser
    [("batch_id", PyStr "B1"); ("graph", PyStr "{g1}"); ("canceled", PyInt 0)]
  = Raise DecodeError /\
  _deserialize_batch_process ser
    [("batch_id", PyStr "B1"); ("batches", PyStr "[{n1};]"); ("canceled", PyInt 0)]
  = Raise DecodeError.
Proof.
  split; [|split].
  - apply (proj1 (missing_field_sentinel_is_refused ser _)). reflexivity.
  - apply (proj1 (proj2 (missing_field_sentinel_is_refused ser _))); reflexivity.
  - apply (proj2 (proj2 (missing_field_sentinel_is_refused ser _))); reflexivity.
Defined.

(** C9 on B1 with its two sessions: [cancel] of B1 keeps the data of
    B1 and of its session S2. *)
Lemma only_canceled_and_state_change_witness :
  exists r r' s s',
    find_process one_batch "B1" = Some r /\
    find_process (step ser later (Cancel "B1") one_batch) "B1" = Some r' /\
    find_session one_batch "B1" "S2" = Some s /\
    find_session (step ser later (Cancel "B1") one_batch) "B1" "S2" = Some s' /\
    same_process_data r r' /\
    same_session_data s s'.
Proof.
  do 4 eexists.
  split; [reflexivity|]. split; [reflexivity|].
  split; [reflexivity|]. split; [reflexivity|].
  destruct (only_canceled_and_state_change ser later (Cancel "B1") one_batch)
    as [Hp Hs].
  split.
  - exact (proj1 (Hp "B1" _ _ eq_refl eq_refl)).
  - exact (proj1 (Hs "B1" "S2" _ _ eq_refl eq_refl)).
Defined.

(** C10 on B1 with its two sessions: no session S3 anywhere. *)
Lemma update_of_missing_session_witness :
  update_session_state working one_batch "B1" "S3" (to completed)
  = (one_batch, Raise BatchSessionNotFoundException).
Proof.
  destruct (update_of_missing_session working one_batch "B1" "S3" (to completed)
              eq_refl eq_refl) as (Hdb & _ & _ & Hres).
  rewrite (surjective_pairing (update_session_state _ _ _ _ _)).
  rewrite Hdb, (Hres eq_refl). reflexivity.
Defined.

(** C10 as stated fails when the pair is missing but a session of another
    batch has the session_id: no row (B2, S1), yet the call returns the
    session (B1, S1) and raises nothing. *)
Lemma update_of_missing_pair_returns_other_session :
  has_session one_batch "B2" "S1" = false /\
  update_session_state working one_batch "B2" "S1" (to completed)
  = (one_batch, Ok (session "B1" "S1" created)) /\
  snd (update_session_state working one_batch "B2" "S1" (to completed))
  <> Raise BatchSessionNotFoundException.
Proof. repeat split; try reflexivity. vm_compute. discriminate. Qed.

End Scenario.

(** * Further properties of the store *)

Lemma session_matches_created (r : batch_session_row) (b : string) :
  matches where_created_session [PyStr b] r
  = ((s_batch_id r =? b)%string && (s_state r =? "created")%string).
Proof.
  unfold matches. cbn.
  destruct (s_batch_id r =? b)%string, (s_state r =? "created")%string; reflexivity.
Qed.

Lemma select_created (b : string) (rows : list batch_session_row) :
  select_where where_created_session [PyStr b] rows
  = Some (filter (fun r => (s_batch_id r =? b)%string
                           && (s_state r =? "created")%string) rows).
Proof.
  unfold select_where. prepared. f_equal.
  apply filter_ext. intros r. apply session_matches_created.
Qed.

Lemma insert_by_created_at_in (r x : batch_session_row)
  (rows : list batch_session_row) :
  In x (insert_by_created_at r rows) <-> x = r \/ In x rows.
Proof.
  induction rows as [|y rows IH]; simpl.
  - intuition congruence.
  - destruct (String.leb (s_created_at r) (s_created_at y)); simpl.
    + intuition congruence.
    + rewrite IH. intuition congruence.
Qed.

Lemma by_created_at_in (x : batch_session_row) (rows : list batch_session_row) :
  In x (by_created_at rows) <-> In x rows.
Proof.
  induction rows as [|r rows IH]; simpl; [tauto|].
  rewrite insert_by_created_at_in, IH. intuition congruence.
Qed.

Lemma first_created_some (db : database) (b : string) (r : batch_session_row) :
  first_created db b = Some r ->
  In r (batch_session db) /\
  (s_batch_id r =? b)%string && (s_state r =? "created")%string = true.
Proof.
  unfold first_created, fetchone. intros H.
  assert (Hin : In r (by_created_at
                        (filter (fun r => (s_batch_id r =? b)%string
                                          && (s_state r =? "created")%string)
                                (batch_session db)))).
  { destruct (by_created_at _) as [|x l]; [discriminate|].
    injection H as ->. now left. }
  apply (proj1 (by_created_at_in _ _)) in Hin. now apply filter_In in Hin.
Qed.

Lemma first_created_none (db : database) (b : string) :
  first_created db b = None <-> has_created db b = false.
Proof.
  unfold first_created, has_created, fetchone. split.
  - intros H.
    destruct (existsb _ (batch_session db)) eqn:E; [|reflexivity].
    apply existsb_exists in E. destruct E as (x & Hx & Kx).
    assert (Hin : In x (by_created_at
                          (filter (fun r => (s_batch_id r =? b)%string
                                            && (s_state r =? "created")%string)
                                  (batch_session db))))
      by (apply by_created_at_in, filter_In; now split).
    destruct (by_created_at _); [destruct Hin|discriminate].
  - intros H. now rewrite (filter_none _ _ H).
Qed.

Lemma get_created_session_first (e : engine) (db : database) (b : string) :
  read_error e = false ->
  get_created_session e db b =
  match first_created db b with
  | None => Raise BatchSessionNotFoundException
  | Some r => _deserialize_batch_session (as_dict r)
  end.
Proof.
  intros R. unfold get_created_session, query, first_created.
  rewrite R, select_created. reflexivity.
Qed.

Lemma find_existsb {A : Type} (f : A -> bool) (l : list A) :
  find f l = None <-> existsb f l = false.
Proof.
  induction l as [|x l IH]; simpl; [tauto|].
  destruct (f x); simpl; [split; discriminate|exact IH].
Qed.

Lemma find_some_existsb {A : Type} (f : A -> bool) (l : list A) (a : A) :
  find f l = Some a -> existsb f l = true.
Proof.
  intros H. destruct (existsb f l) eqn:E; [reflexivity|].
  apply find_existsb in E. congruence.
Qed.


Lemma deserialize_session_result (r : batch_session_row) :
  (exists c, state_of_text (s_state r) = Some c /\
             _deserialize_batch_session (as_dict r)
             = Ok {| BatchSession.batch_id := s_batch_id r;
                     BatchSession.session_id := s_session_id r;
                     BatchSession.state := c |}) \/
  (state_of_text (s_state r) = None /\
   _deserialize_batch_session (as_dict r) = Raise DecodeError).
Proof.
  rewrite deserialize_batch_session_row.
  destruct (state_of_text (s_state r)) as [c|]; simpl.
  - left. now exists c.
  - now right.
Qed.

Section FurtherProperties.

Context {Graph BatchDataType : Type}.
Variable ser : Serializers Graph BatchDataType.

Local Abbreviation BatchProcess := (BatchProcess.t Graph BatchDataType).

Lemma deserialize_process_not_missing (r : batch_process_row) :
  _deserialize_batch_process ser (as_dict r)
  <> Raise BatchProcessNotFoundException.
Proof.
  rewrite deserialize_batch_process_row.
  destruct (json_loads ser (p_batches r)) as [l|]; simpl; [|discriminate].
  destruct (traverse (parse_raw_as_Batch ser) l); simpl; [|discriminate].
  destruct (parse_raw_as_Graph ser (p_graph r)); simpl; discriminate.
Qed.

(** [get] raises BatchProcessNotFoundException exactly when the read
    fails or no row has the batch_id. *)
Theorem get_not_found_iff :
  forall (e : engine) (db : database) (b : string),
    get ser e db (Some b) = Raise BatchProcessNotFoundException
    <-> (read_error e = true \/ has_process db b = false).
Proof.
  intros e db b. destruct (read_error e) eqn:R.
  - unfold get, query. rewrite R. split; [now left|reflexivity].
  - rewrite (get_first ser e db b R). unfold find_process, has_process.
    destruct (find _ (batch_process db)) as [r|] eqn:F.
    + split.
      * intros H. now apply deserialize_process_not_missing in H.
      * intros [H|H]; [discriminate|].
        apply find_some_existsb in F. congruence.
    + split; [|reflexivity]. intros _. right. now apply find_existsb.
Qed.

(** [get_session] raises BatchSessionNotFoundException exactly when the
    read fails or no session of any batch has the session_id. *)
Theorem get_session_not_found_iff :
  forall (e : engine) (db : database) (s : string),
    get_session e db s = Raise BatchSessionNotFoundException
    <-> (read_error e = true \/ session_id_unused db s = true).
Proof.
  intros e db s.
  assert (U : session_id_unused db s
              = negb (existsb (fun r => (s_session_id r =? s)%string)
                              (batch_session db))).
  { unfold session_id_unused. induction (batch_session db) as [|x l IH];
      simpl; [reflexivity|].
    rewrite IH. now destruct (s_session_id x =? s)%string. }
  destruct (read_error e) eqn:R.
  - unfold get_session, query. rewrite R. split; [now left|reflexivity].
  - rewrite (get_session_first e db s R), U.
    destruct (find _ (batch_session db)) as [r|] eqn:F.
    + rewrite (find_some_existsb _ _ _ F). simpl negb. split.
      * intros H. destruct (deserialize_session_result r)
          as [(c & _ & E)|[_ E]]; rewrite E in H; discriminate.
      * intros [H|H]; discriminate.
    + apply find_existsb in F. rewrite F. simpl. split; [now right|reflexivity].
Qed.

(** A new session of a stored batch, under a session_id nobody uses, is
    stored as given: [create_session] returns it and [get_session] reads
    it back. *)
Theorem create_session_round_trip :
  forall (e e' : engine) (db : database) (s : BatchSession.t),
    write_error e = false ->
    read_error e = false ->
    read_error e' = false ->
    has_process db (BatchSession.batch_id s) = true ->
    session_id_unused db (BatchSession.session_id s) = true ->
    snd (create_session e db s) = Ok s /\
    get_session e' (fst (create_session e db s)) (BatchSession.session_id s)
    = Ok s /\
    batch_session (fst (create_session e db s))
    = batch_session db ++ [inserted_session e s] /\
    batch_process (fst (create_session e db s)) = batch_process db.
Proof.
  intros e e' db s W R R' Hp Hu.
  assert (Hn : find (fun r => (s_session_id r =? BatchSession.session_id s)%string)
                    (batch_session db) = None).
  { apply find_none_all. intros x Hx.
    unfold session_id_unused in Hu. rewrite forallb_forall in Hu.
    apply negb_true_iff. now apply Hu. }
  assert (Hs : existsb (fun r => (s_batch_id r =? BatchSession.batch_id s)%string
                                 && (s_session_id r =? BatchSession.session_id s)%string)
                       (batch_session db) = false).
  { destruct (existsb _ (batch_session db)) eqn:E; [|reflexivity].
    apply existsb_exists in E. destruct E as (x & Hx & Kx).
    apply andb_true_iff in Kx. destruct Kx as [_ Kx].
    apply find_existsb in Hn.
    assert (existsb (fun r => (s_session_id r =? BatchSession.session_id s)%string)
                    (batch_session db) = true)
      by (apply existsb_exists; now exists x).
    congruence. }
  unfold create_session, transaction, insert_or_ignore_batch_session.
  unfold has_process in Hp. rewrite W, Hs, Hp. simpl fst; simpl snd.
  assert (G : forall e0, read_error e0 = false ->
                get_session e0
                  {| batch_process := batch_process db;
                     batch_session := batch_session db ++ [inserted_session e s] |}
                  (BatchSession.session_id s) = Ok s).
  { intros e0 R0. rewrite (get_session_first e0 _ _ R0). simpl batch_session.
    rewrite (find_app_none _ _ _ Hn).
    replace (find _ [inserted_session e s]) with (Some (inserted_session e s))
      by (simpl; now rewrite String.eqb_refl).
    rewrite deserialize_batch_session_row. simpl.
    rewrite state_of_text_of_state. simpl. now destruct s. }
  repeat split; try reflexivity; now apply G.
Qed.

(** No session without its batch: for a batch_id that is not stored,
    [create_session] raises BatchSessionSaveException and stores
    nothing. *)
Theorem create_session_requires_batch :
  forall (e : engine) (db : database) (s : BatchSession.t),
    foreign_keys_ok db = true ->
    has_process db (BatchSession.batch_id s) = false ->
    create_session e db s = (db, Raise BatchSessionSaveException).
Proof.
  intros e db s FK Hp.
  unfold create_session, transaction, insert_or_ignore_batch_session.
  destruct (write_error e); [reflexivity|].
  destruct (existsb _ (batch_session db)) eqn:E.
  - exfalso. apply existsb_exists in E. destruct E as (x & Hx & Kx).
    apply andb_true_iff in Kx. destruct Kx as [Kb _]. apply String.eqb_eq in Kb.
    unfold foreign_keys_ok in FK. rewrite forallb_forall in FK.
    specialize (FK x Hx). rewrite Kb in FK. congruence.
  - unfold has_process in Hp. now rewrite Hp.
Qed.

(** [get_created_session] gives a session of the batch in state created
    that is stored, raises BatchSessionNotFoundException when the batch
    has none, and gives one when the batch has one and the read works. *)
Theorem get_created_session_finds_created :
  forall (e : engine) (db : database) (b : string),
    (has_created db b = false ->
     get_created_session e db b = Raise BatchSessionNotFoundException) /\
    (forall s, get_created_session e db b = Ok s ->
               BatchSession.batch_id s = b /\
               BatchSession.state s = created /\
               has_session db b (BatchSession.session_id s) = true) /\
    (read_error e = false ->
     has_created db b = true ->
     exists s, get_created_session e db b = Ok s).
Proof.
  intros e db b.
  assert (Row : forall r,
             In r (batch_session db) ->
             (s_batch_id r =? b)%string && (s_state r =? "created")%string = true ->
             _deserialize_batch_session (as_dict r)
             = Ok {| BatchSession.batch_id := b;
                     BatchSession.session_id := s_session_id r;
                     BatchSession.state := created |}).
  { intros r _ K. apply andb_true_iff in K. destruct K as [Kb Ks].
    apply String.eqb_eq in Kb, Ks.
    rewrite deserialize_batch_session_row, Kb, Ks. reflexivity. }
  split; [|split].
  - intros Hno. destruct (read_error e) eqn:R.
    + unfold get_created_session, query. now rewrite R.
    + rewrite (get_created_session_first e db b R).
      apply first_created_none in Hno. now rewrite Hno.
  - intros s Hs. destruct (read_error e) eqn:R.
    + unfold get_created_session, query in Hs. rewrite R in Hs. discriminate.
    + rewrite (get_created_session_first e db b R) in Hs.
      destruct (first_created db b) as [r|] eqn:F; [|discriminate].
      apply first_created_some in F. destruct F as [Hin K].
      rewrite (Row r Hin K) in Hs. injection Hs as <-. simpl.
      repeat split. unfold has_session. apply existsb_exists. exists r.
      apply andb_true_iff in K. destruct K as [-> _].
      now rewrite String.eqb_refl.
  - intros R Hc. rewrite (get_created_session_first e db b R).
    destruct (first_created db b) as [r|] eqn:F.
    + apply first_created_some in F. destruct F as [Hin K].
      rewrite (Row r Hin K). eauto.
    + apply first_created_none in F. congruence.
Qed.

(** A session whose state was updated to anything but created is no
    longer what [get_created_session] of its batch gives. *)
Theorem updated_session_is_not_created :
  forall (e e' : engine) (db : database) (b sid : string)
         (ch : BatchSessionChanges.t) (s' : BatchSession.t),
    write_error e = false ->
    BatchSessionChanges.state ch <> created ->
    get_created_session e' (fst (update_session_state e db b sid ch)) b = Ok s' ->
    BatchSession.session_id s' <> sid.
Proof.
  intros e e' db b sid ch s' W Hc Hs.
  destruct (update_ok e db b sid ch W) as [Edb _]. rewrite Edb in Hs. clear Edb.
  destruct (read_error e') eqn:R.
  - unfold get_created_session, query in Hs. rewrite R in Hs. discriminate.
  - rewrite (get_created_session_first e' _ b R) in Hs.
    match type of Hs with
    | match first_created ?d ?x with _ => _ end = _ =>
        destruct (first_created d x) as [r|] eqn:F; [|discriminate]
    end.
    apply first_created_some in F. destruct F as [Hin K].
    simpl batch_session in Hin.
    apply andb_true_iff in K. destruct K as [Kb Ks].
    apply String.eqb_eq in Kb, Ks.
    rewrite deserialize_batch_session_row, Ks in Hs. simpl in Hs.
    injection Hs as <-. simpl. intros Esid.
    apply in_map_iff in Hin. destruct Hin as (y & Ey & _).
    destruct ((s_batch_id y =? b)%string && (s_session_id y =? sid)%string) eqn:M.
    + subst r. simpl in Ks.
      destruct (BatchSessionChanges.state ch); try discriminate Ks.
      now apply Hc.
    + subst r. rewrite Kb, Esid, !String.eqb_refl in M. discriminate.
Qed.

(** ** Stored states are states *)

Lemma forallb_filter {A : Type} (f g : A -> bool) (l : list A) :
  forallb f l = true -> forallb f (filter g l) = true.
Proof.
  rewrite !forallb_forall. intros H x Hx. apply filter_In in Hx. now apply H.
Qed.

Lemma step_states_ok (e : engine) (c : call) (db : database) :
  states_ok db = true -> states_ok (step ser e c db) = true.
Proof.
  intros S.
  destruct c as [b'|p|b'|b'|s|sid|b'|b'|b' s' ch]; simpl step; try exact S.
  - destruct (write_error e) eqn:W.
    + unfold delete, transaction. now rewrite W.
    + rewrite (delete_ok e db b' W). unfold states_ok in *. simpl.
      now apply forallb_filter.
  - unfold save, transaction, insert_or_ignore_batch_process.
    destruct (write_error e); [exact S|].
    destruct (BatchProcess.batch_id p) as [b'|]; [|exact S].
    destruct (existsb _ (batch_process db)); exact S.
  - destruct (write_error e) eqn:W.
    + unfold cancel, transaction. now rewrite W.
    + rewrite (cancel_ok e db b' W). exact S.
  - unfold create_session, transaction, insert_or_ignore_batch_session.
    destruct (write_error e); [exact S|].
    destruct (existsb _ (batch_session db)); [exact S|].
    destruct (existsb _ (batch_process db)); [|exact S].
    unfold states_ok in *. simpl. rewrite forallb_app, S. simpl.
    now rewrite state_of_text_of_state.
  - destruct (write_error e) eqn:W.
    + unfold update_session_state, transaction. now rewrite W.
    + destruct (update_ok e db b' s' ch W) as [-> _].
      unfold states_ok in *. simpl. rewrite forallb_forall in *.
      intros x Hx. apply in_map_iff in Hx. destruct Hx as (y & <- & Hy).
      destruct ((s_batch_id y =? b')%string && (s_session_id y =? s')%string).
      * simpl. now rewrite state_of_text_of_state.
      * now apply S.
Qed.

Lemma run_states_ok (calls : list (engine * call)) :
  forall db, states_ok db = true -> states_ok (run ser calls db) = true.
Proof.
  induction calls as [|[e c] calls IH]; intros db S; simpl; [exact S|].
  apply IH. now apply step_states_ok.
Qed.

(** On every database the store reaches from the empty one, the session
    reads decode what they find: [get_session] and [get_created_session]
    return a session or raise BatchSessionNotFoundException. *)
Theorem session_reads_decode :
  forall (calls : list (engine * call)) (e : engine) (x : string),
    ((exists s, get_session e (run ser calls empty) x = Ok s) \/
     get_session e (run ser calls empty) x = Raise BatchSessionNotFoundException) /\
    ((exists s, get_created_session e (run ser calls empty) x = Ok s) \/
     get_created_session e (run ser calls empty) x
     = Raise BatchSessionNotFoundException).
Proof.
  intros calls e x.
  pose proof (run_states_ok calls empty eq_refl) as S.
  set (db := run ser calls empty) in *.
  unfold states_ok in S. rewrite forallb_forall in S.
  assert (D : forall r, In r (batch_session db) ->
                exists s, _deserialize_batch_session (as_dict r) = Ok s).
  { intros r Hr. specialize (S r Hr).
    destruct (deserialize_session_result r) as [(c & _ & E)|[N _]].
    - eauto.
    - rewrite N in S. discriminate. }
  destruct (read_error e) eqn:R.
  - split; right.
    + unfold get_session, query. now rewrite R.
    + unfold get_created_session, query. now rewrite R.
  - rewrite (get_session_first e db x R), (get_created_session_first e db x R).
    split.
    + destruct (find _ (batch_session db)) as [r|] eqn:F; [left|now right].
      apply D. now apply find_some in F.
    + destruct (first_created db x) as [r|] eqn:F; [left|now right].
      apply D. now apply first_created_some in F.
Qed.

(** ** What calls leave in place *)

(** Only [delete] of its batch removes a batch or a session: after any
    other call, with any outcome of the engine, a stored batch is stored
    and a stored session is stored. *)
Theorem only_delete_removes :
  forall (e : engine) (c : call) (db : database) (b : string),
    deletes b c = false ->
    (has_process db b = true -> has_process (step ser e c db) b = true) /\
    (forall s, has_session db b s = true ->
               has_session (step ser e c db) b s = true).
Proof.
  intros e c db b Hd. split.
  - intros H. destruct (existsb_find _ _ H) as (r & F & _).
    destruct (step_process_row ser e c db b r F) as [[_ D]|(r' & F' & _)].
    + congruence.
    + exact (find_some_existsb _ _ _ F').
  - intros s H. destruct (existsb_find _ _ H) as (r & F & _).
    destruct (step_session_row ser e c db b s r F) as [[_ D]|(r' & F' & _)].
    + congruence.
    + exact (find_some_existsb _ _ _ F').
Qed.

(** [delete] of a batch leaves every other batch and its sessions as they
    are, and [get] of another batch returns what it returned before. *)
Theorem delete_leaves_other_batches :
  forall (e e' : engine) (db : database) (b b' : string),
    b' <> b ->
    find_process (fst (delete e db b)) b' = find_process db b' /\
    (forall s, find_session (fst (delete e db b)) b' s = find_session db b' s) /\
    get ser e' (fst (delete e db b)) (Some b') = get ser e' db (Some b').
Proof.
  intros e e' db b b' N.
  assert (P : find_process (fst (delete e db b)) b' = find_process db b').
  { destruct (write_error e) eqn:W.
    - unfold delete, transaction. now rewrite W.
    - rewrite (delete_ok e db b W). unfold find_process. simpl.
      apply find_filter_same. intros x Fx. apply String.eqb_eq in Fx.
      apply negb_true_iff. apply String.eqb_neq. congruence. }
  split; [exact P|]. split.
  - intros s. destruct (write_error e) eqn:W.
    + unfold delete, transaction. now rewrite W.
    + rewrite (delete_ok e db b W). unfold find_session. simpl.
      apply find_filter_same. intros x Fx.
      apply andb_true_iff in Fx. destruct Fx as [Fx _]. apply String.eqb_eq in Fx.
      apply negb_true_iff. apply andb_false_iff. left.
      apply String.eqb_neq. congruence.
  - destruct (read_error e') eqn:R.
    + unfold get, query. now rewrite R.
    + now rewrite !(get_first ser e' _ _ R), P.
Qed.

Lemma run_keeps_row (calls : list (engine * call)) :
  forall (db : database) (b : string) (r : batch_process_row),
    forallb (fun ec => negb (deletes b (snd ec)) && negb (cancels b (snd ec)))
            calls = true ->
    find_process db b = Some r ->
    find_process (run ser calls db) b = Some r.
Proof.
  induction calls as [|[e c] calls IH]; intros db b r Hno Hr; simpl; [exact Hr|].
  simpl in Hno. apply andb_true_iff in Hno. destruct Hno as [Hc Hno].
  apply andb_true_iff in Hc. destruct Hc as [Hd Hc].
  apply negb_true_iff in Hd, Hc.
  apply IH; [exact Hno|].
  destruct (step_process_row ser e c db b r Hr) as [[_ D]|(r' & F' & _ & [->|[E _]])].
  - congruence.
  - exact F'.
  - subst c. simpl in Hc. rewrite String.eqb_refl in Hc. discriminate.
Qed.

(** Calls that neither delete nor cancel a stored batch do not change
    what [get] returns for it: saves under any batch_id, cancels and
    deletes of other batches, and all session calls. *)
Theorem get_is_stable :
  forall (calls : list (engine * call)) (e : engine) (db : database) (b : string),
    has_process db b = true ->
    forallb (fun ec => negb (deletes b (snd ec)) && negb (cancels b (snd ec)))
            calls = true ->
    get ser e (run ser calls db) (Some b) = get ser e db (Some b).
Proof.
  intros calls e db b H Hno.
  destruct (existsb_find _ _ H) as (r & F & _).
  pose proof (run_keeps_row calls db b r Hno F) as F'.
  destruct (read_error e) eqn:R.
  - unfold get, query. now rewrite R.
  - rewrite !(get_first ser e _ _ R).
    fold (find_process db b) in F. now rewrite F, F'.
Qed.

(** After [cancel], [get] returns what it returned before with the
    canceled flag set. *)
Theorem cancel_then_get :
  forall (e e' : engine) (db : database) (b : string) (p : BatchProcess),
    write_error e = false ->
    get ser e' db (Some b) = Ok p ->
    get ser e' (fst (cancel e db b)) (Some b) = Ok (as_canceled p).
Proof.
  intros e e' db b p W Hget.
  destruct (read_error e') eqn:R.
  - unfold get, query in Hget. rewrite R in Hget. discriminate.
  - rewrite (get_first ser e' db b R) in Hget.
    destruct (find_process db b) as [r|] eqn:F; [|discriminate].
    destruct (cancel_sets_canceled e db b r W F)
      as (r' & F' & C' & (S1 & S2 & S3 & _)).
    rewrite (get_first ser e' _ b R), F'.
    rewrite deserialize_batch_process_row in *. rewrite S1, S2, S3, C'.
    destruct (json_loads ser (p_batches r)) as [l|]; simpl in *; [|discriminate].
    destruct (traverse (parse_raw_as_Batch ser) l); simpl in *; [|discriminate].
    destruct (parse_raw_as_Graph ser (p_graph r)); simpl in *; [|discriminate].
    injection Hget as <-. reflexivity.
Qed.

Lemma delete_removes_sessions (e : engine) (db : database) (b : string) :
  write_error e = false ->
  foreign_keys_ok db = true ->
  forall s, In s (batch_session (fst (delete e db b))) ->
            (s_batch_id s =? b)%string = false.
Proof.
  intros W FK s Hs. rewrite (delete_ok e db b W) in Hs. simpl in Hs.
  apply filter_In in Hs. destruct Hs as [Hin Keep].
  destruct (String.eqb_spec (s_batch_id s) b) as [E|]; [|reflexivity].
  unfold foreign_keys_ok in FK. rewrite forallb_forall in FK.
  specialize (FK s Hin). rewrite E in FK. rewrite FK in Keep. discriminate.
Qed.

(** After [delete] of a batch, the lookups by its batch_id find nothing:
    [get] raises BatchProcessNotFoundException and [get_created_session]
    raises BatchSessionNotFoundException. *)
Theorem delete_then_not_found :
  forall (e e' : engine) (db : database) (b : string),
    write_error e = false ->
    foreign_keys_ok db = true ->
    get ser e' (fst (delete e db b)) (Some b)
    = Raise BatchProcessNotFoundException /\
    get_created_session e' (fst (delete e db b)) b
    = Raise BatchSessionNotFoundException.
Proof.
  intros e e' db b W FK. split.
  - destruct (read_error e') eqn:R.
    + unfold get, query. now rewrite R.
    + rewrite (get_first ser e' _ b R), (delete_ok e db b W).
      unfold find_process. simpl.
      rewrite find_filter_none; [reflexivity|].
      intros x Fx. now rewrite Fx.
  - destruct (read_error e') eqn:R.
    + unfold get_created_session, query. now rewrite R.
    + rewrite (get_created_session_first e' _ b R).
      destruct (first_created _ b) as [r|] eqn:F; [|reflexivity].
      apply first_created_some in F. destruct F as [Hin K].
      rewrite (delete_removes_sessions e db b W FK r Hin) in K. discriminate.
Qed.

(** ** Rows read back *)




End FurtherProperties.

(** * The further properties on the scenario *)

Section FurtherScenario.

Import Example.
Import Scenario2.

(** A session S3 of B1 is created in progress and read back. *)
Lemma create_session_round_trip_witness :
  snd (create_session working one_batch (session "B1" "S3" inprogress))
  = Ok (session "B1" "S3" inprogress) /\
  get_session later
    (fst (create_session working one_batch (session "B1" "S3" inprogress))) "S3"
  = Ok (session "B1" "S3" inprogress).
Proof.
  destruct (create_session_round_trip working later one_batch
              (session "B1" "S3" inprogress)
              eq_refl eq_refl eq_refl eq_refl eq_refl) as (H1 & H2 & _).
  now split.
Defined.

(** No session for B9, which is not stored. *)
Lemma create_session_requires_batch_witness :
  create_session working one_batch (session "B9" "S1" created)
  = (one_batch, Raise BatchSessionSaveException).
Proof.
  apply (create_session_requires_batch working one_batch
           (session "B9" "S1" created)); reflexivity.
Defined.

(** With S1 completed and S2 created, the created session of B1 is S2;
    B2 has none. *)
Lemma get_created_session_finds_created_witness :
  (exists s, get_created_session working one_completed "B1" = Ok s) /\
  get_created_session working one_completed "B2"
  = Raise BatchSessionNotFoundException /\
  has_session one_completed "B1" "S2" = true.
Proof.
  destruct (get_created_session_finds_created working one_completed "B1")
    as (_ & Hsound & Hfinds).
  destruct (get_created_session_finds_created working one_completed "B2")
    as (Hnone & _ & _).
  split; [apply Hfinds; reflexivity|].
  split; [apply Hnone; reflexivity|].
  apply (Hsound (session "B1" "S2" created)). reflexivity.
Defined.

(** After S1 of B1 is completed, the created session of B1 is not S1. *)
Lemma updated_session_is_not_created_witness :
  get_created_session later
    (fst (update_session_state working one_batch "B1" "S1" (to completed))) "B1"
  = Ok (session "B1" "S2" created) /\
  "S2" <> "S1".
Proof.
  split; [reflexivity|].
  apply (updated_session_is_not_created working later one_batch "B1" "S1"
           (to completed) (session "B1" "S2" created)).
  - reflexivity.
  - discriminate.
  - reflexivity.
Defined.

(** A cancel of B1 and a delete of B2 remove neither B1 nor its session. *)
Lemma only_delete_removes_witness :
  has_process (step ser working (Delete "B2") shared_session_id) "B1" = true /\
  has_session (step ser working (Cancel "B1") shared_session_id) "B1" "S1" = true.
Proof.
  split.
  - apply (only_delete_removes ser working (Delete "B2") shared_session_id "B1");
      reflexivity.
  - apply (only_delete_removes ser working (Cancel "B1") shared_session_id "B1");
      reflexivity.
Defined.

(** The delete of B1 leaves B2 and its session S1. *)
Lemma delete_leaves_other_batches_witness :
  get ser later (fst (delete working shared_session_id "B1")) (Some "B2") = Ok B2 /\
  find_session (fst (delete working shared_session_id "B1")) "B2" "S1"
  = find_session shared_session_id "B2" "S1".
Proof.
  assert (N : "B2" <> "B1") by discriminate.
  destruct (delete_leaves_other_batches ser working later shared_session_id
              "B1" "B2" N) as (_ & Hs & Hg).
  split; [rewrite Hg; reflexivity|apply Hs].
Defined.

(** B1 read after a save under its id, a cancel and a delete of B2 and
    the sessions' calls is B1 as read before. *)
Lemma get_is_stable_witness :
  get ser later
      (run ser [(working, Save B1_other);
                (later, Cancel "B2");
                (working, CreateSession (session "B1" "S3" created));
                (later, UpdateSessionState "B1" "S1" (to error));
                (working, Delete "B2")]
           shared_session_id)
      (Some "B1")
  = Ok B1.
Proof.
  rewrite (get_is_stable ser
             [(working, Save B1_other);
              (later, Cancel "B2");
              (working, CreateSession (session "B1" "S3" created));
              (later, UpdateSessionState "B1" "S1" (to error));
              (working, Delete "B2")]
             later shared_session_id "B1" eq_refl eq_refl).
  reflexivity.
Defined.

(** B1 read after its cancel is B1 canceled. *)
Lemma cancel_then_get_witness :
  get ser later (fst (cancel working one_batch "B1")) (Some "B1") = Ok B1_canceled.
Proof.
  apply (cancel_then_get ser working later one_batch "B1" B1); reflexivity.
Defined.

(** After the delete of B1 nothing is found under B1. *)
Lemma delete_then_not_found_witness :
  get ser later (fst (delete working one_batch "B1")) (Some "B1")
  = Raise BatchProcessNotFoundException /\
  get_created_session later (fst (delete working one_batch "B1")) "B1"
  = Raise BatchSessionNotFoundException.
Proof.
  apply (delete_then_not_found ser working later one_batch "B1"); reflexivity.
Defined.

(** A batch process without batch_id is not stored. *)
Lemma save_without_batch_id_witness :
  save ser working one_batch anonymous
  = (one_batch, Raise BatchProcessNotFoundException).
Proof.
  apply (save_without_batch_id ser working one_batch anonymous). reflexivity.
Defined.

(** A dictionary without batch_id gives the session of the batch unknown. *)
Lemma deserialize_session_without_batch_id_witness :
  _deserialize_batch_session [("session_id", PyStr "S1"); ("state", PyStr "error")]
  = Ok (session "unknown" "S1" error).
Proof.
  apply (deserialize_session_without_batch_id
           [("session_id", PyStr "S1"); ("state", PyStr "error")] "S1" error);
    reflexivity.
Defined.

(** C2 as stated fails for a batch process without batch_id: nothing
    is stored under it, the serializers decode back what they write for
    it, and yet [save] raises and stores nothing, and so does [get]. *)
Lemma save_of_anonymous_is_lost :
  BatchProcess.batch_id anonymous = None /\
  decodes_back ser anonymous /\
  save ser working empty anonymous
  = (empty, Raise BatchProcessNotFoundException) /\
  get ser working (fst (save ser working empty anonymous))
      (BatchProcess.batch_id anonymous)
  = Raise BatchProcessNotFoundException.
Proof. repeat split; reflexivity. Qed.


End FurtherScenario.
